(** * Ginue-AI (GAIM Lab) front end: a shallow embedding of its pages

    The repository's source is the React client: the Analysis, Dashboard,
    Portfolio, AI-coach and Upload pages.  Each page is embedded in a
    module of its own, with the component state as a record, the event
    handlers as functions on that record, and what the environment
    supplies (the clock, the outcome of a [fetch], the events of the
    WebSocket) as explicit arguments. *)

From Stdlib Require Import ZArith List Bool String Ascii Lia Sorted.
From Stdlib Require Import Numbers.DecimalString.
Import ListNotations.
Open Scope Z_scope.

(** ** JavaScript strings

    A JavaScript string is a sequence of UTF-16 code units; [includes],
    [trim] and the regular expression of the upload page all work on code
    units.  Literals of the source are written as Rocq strings (UTF-8
    bytes in the file) and converted by [js]. *)

Module JsString.

Definition jsstring : Type := list Z.

Definition byte_val (c : ascii) : Z := Z.of_nat (nat_of_ascii c).

(** Continuation byte of a UTF-8 sequence: its low six bits. *)
Definition cont (c : ascii) : Z := Z.land (byte_val c) 63.

Fixpoint code_points (s : string) : list Z :=
  match s with
  | EmptyString => []
  | String c0 s0 =>
      let b0 := byte_val c0 in
      if b0 <? 128 then b0 :: code_points s0
      else if b0 <? 224 then
        match s0 with
        | String c1 s1 =>
            (Z.shiftl (Z.land b0 31) 6 + cont c1) :: code_points s1
        | EmptyString => [65533]
        end
      else if b0 <? 240 then
        match s0 with
        | String c1 (String c2 s2) =>
            (Z.shiftl (Z.land b0 15) 12 + Z.shiftl (cont c1) 6 + cont c2)
              :: code_points s2
        | _ => [65533]
        end
      else
        match s0 with
        | String c1 (String c2 (String c3 s3)) =>
            (Z.shiftl (Z.land b0 7) 18 + Z.shiftl (cont c1) 12
             + Z.shiftl (cont c2) 6 + cont c3) :: code_points s3
        | _ => [65533]
        end
  end.

(** A code point above the basic plane is a surrogate pair. *)
Definition utf16_units (cp : Z) : list Z :=
  if cp <? 65536 then [cp]
  else [55296 + Z.shiftr (cp - 65536) 10; 56320 + Z.land (cp - 65536) 1023].

Definition js (s : string) : jsstring := flat_map utf16_units (code_points s).

(** The empty string is the only falsy string. *)
Definition truthy (s : jsstring) : bool :=
  match s with [] => false | _ :: _ => true end.

Fixpoint eqb (s t : jsstring) : bool :=
  match s, t with
  | [], [] => true
  | c :: s', d :: t' => (c =? d) && eqb s' t'
  | _, _ => false
  end.

Fixpoint startsWith (s kw : jsstring) {struct kw} : bool :=
  match kw, s with
  | [], _ => true
  | _ :: _, [] => false
  | k :: kw', c :: s' => (c =? k) && startsWith s' kw'
  end.

(** [String.prototype.includes]: [kw] occurs in [s] at some position. *)
Fixpoint includes (s kw : jsstring) : bool :=
  startsWith s kw ||
  match s with
  | [] => false
  | _ :: s' => includes s' kw
  end.

Definition endsWith (s kw : jsstring) : bool := startsWith (rev s) (rev kw).

(** WhiteSpace and LineTerminator code units of ECMAScript, the ones
    [String.prototype.trim] strips. *)
Definition white_space_units : list Z :=
  [9; 10; 11; 12; 13; 32; 160; 5760;
   8192; 8193; 8194; 8195; 8196; 8197; 8198; 8199; 8200; 8201; 8202;
   8232; 8233; 8239; 8287; 12288; 65279].

Definition isWhiteSpace (c : Z) : bool := existsb (Z.eqb c) white_space_units.

Fixpoint trimStart (s : jsstring) : jsstring :=
  match s with
  | [] => []
  | c :: s' => if isWhiteSpace c then trimStart s' else s
  end.

Definition trimEnd (s : jsstring) : jsstring := rev (trimStart (rev s)).

Definition trim (s : jsstring) : jsstring := trimEnd (trimStart s).

(** [Number.prototype.toString] on an integer: its decimal digits. *)
Definition toString (n : Z) : jsstring :=
  js (NilZero.string_of_int (Z.to_int n)).

(** Case folding of the [i] flag restricted to what can match an ASCII
    pattern: without the [u] flag a code unit above 127 never folds onto
    an ASCII letter, so only [A]-[Z] are mapped. *)
Definition lower (c : Z) : Z :=
  if (65 <=? c) && (c <=? 90) then c + 32 else c.

Definition toLowerAscii (s : jsstring) : jsstring := map lower s.

Definition nl : string := String "010"%char EmptyString.
Definition dq : string := String "034"%char EmptyString.

End JsString.

Import JsString.

(** ** Analysis page: the demo result and the dimension labels *)

Module Analysis.

Record DimensionScore : Type := {
  score : Z;
  max_score : Z;
  feedback : jsstring
}.

(** [dimensions] is a JavaScript object; [Object.entries] walks its string
    keys in insertion order, so it is kept as an association list. *)
Record Evaluation : Type := {
  total_score : Z;
  grade : jsstring;
  dimensions : list (jsstring * DimensionScore)
}.

(** The analysis result as far as the page reads its [evaluation]; the
    [transcript], [emotion], [vision] and [audio] summaries hold
    floating-point ratios and play no part in the score. *)
Record Result : Type := {
  id : jsstring;
  video_name : jsstring;
  created_at : jsstring;
  evaluation : Evaluation
}.

Definition dim (s m : Z) (f : string) : DimensionScore :=
  {| score := s; max_score := m; feedback := js f |}.

Definition DEMO_RESULT : Result := {|
  id := js "demo123";
  video_name := js "20251209_110545.mp4";
  created_at := js "2025-12-09T11:05:45";
  evaluation := {|
    total_score := 84;
    grade := js "A";
    dimensions := [
      (js "teaching_expertise", dim 17 20 "학습 목표가 명확하게 제시되었습니다.");
      (js "teaching_method", dim 16 20 "다양한 교수법을 활용하고 있습니다.");
      (js "communication", dim 13 15 "습관어 3회 감지됨. 발화 명료성이 우수합니다.");
      (js "teaching_attitude", dim 12 15 "자신감 있는 수업 태도가 돋보입니다.");
      (js "student_engagement", dim 11 15 "학생과의 상호작용이 활발합니다.");
      (js "time_management", dim 8 10 "시간 배분이 적절합니다.");
      (js "creativity", dim 4 5 "창의적인 질문 기법을 사용했습니다.")
    ]
  |}
|}.

Definition DIMENSION_LABELS : list (jsstring * jsstring) := [
  (js "teaching_expertise", js "수업 전문성");
  (js "teaching_method", js "교수학습 방법");
  (js "communication", js "판서 및 언어");
  (js "teaching_attitude", js "수업 태도");
  (js "student_engagement", js "학생 참여");
  (js "time_management", js "시간 배분");
  (js "creativity", js "창의성")
].

(** What [fetch] and [response.json()] hand to [loadAnalysis]: the request
    fails (rejected, not [ok], or not JSON), or it yields [data] whose
    [result] field is present or falsy. *)
Inductive FetchOutcome : Type :=
| FetchFailed
| FetchJson (result : option Result).

(** [loadAnalysis]: [setResult(data.result || DEMO_RESULT)], and
    [setResult(DEMO_RESULT)] in the [catch] branch. *)
Definition loadAnalysis (o : FetchOutcome) : Result :=
  match o with
  | FetchJson (Some r) => r
  | FetchJson None => DEMO_RESULT
  | FetchFailed => DEMO_RESULT
  end.

(** The quantities of the rubric, read off an evaluation. *)
Definition sum_scores (e : Evaluation) : Z :=
  fold_right Z.add 0 (map (fun kv => score (snd kv)) (dimensions e)).

Definition sum_max_scores (e : Evaluation) : Z :=
  fold_right Z.add 0 (map (fun kv => max_score (snd kv)) (dimensions e)).

Definition scores_within_max (e : Evaluation) : bool :=
  forallb (fun kv => score (snd kv) <=? max_score (snd kv)) (dimensions e).

Definition key_max (e : Evaluation) : list (jsstring * Z) :=
  map (fun kv => (fst kv, max_score (snd kv))) (dimensions e).

(** The fixed schedule of the rubric, as the specification lists it. *)
Definition schedule : list (jsstring * Z) := [
  (js "teaching_expertise", 20);
  (js "teaching_method", 20);
  (js "communication", 15);
  (js "teaching_attitude", 15);
  (js "student_engagement", 15);
  (js "time_management", 10);
  (js "creativity", 5)
].

(** [Object.entries(dimensions).map(([key, value]) => ...)] of the radar
    chart and of the detail cards: label, score and max of each row; a key
    without a label gives [undefined], here [None]. *)
Fixpoint lookup (k : jsstring) (o : list (jsstring * jsstring)) : option jsstring :=
  match o with
  | [] => None
  | (k', v) :: o' => if JsString.eqb k k' then Some v else lookup k o'
  end.

Definition rows (e : Evaluation) : list (option jsstring * Z * Z) :=
  map (fun kv => (lookup (fst kv) DIMENSION_LABELS, score (snd kv), max_score (snd kv)))
      (dimensions e).

(** The table of points in the repository's README, row by row (its
    rows are the seven labels of [DIMENSION_LABELS] in their order). *)
Definition README_points : list Z := [15; 15; 15; 15; 15; 10; 15].

End Analysis.

(** ** Dashboard page: demo data *)

Module Dashboard.

Record Recent : Type := {
  id : jsstring;
  name : jsstring;
  score : Z;
  grade : jsstring;
  date : jsstring
}.

Definition DEMO_RECENT : list Recent := [
  {| id := js "1"; name := js "20251209_110545.mp4"; score := 84; grade := js "A"; date := js "2025-12-09" |};
  {| id := js "2"; name := js "20251209_143455.mp4"; score := 81; grade := js "A"; date := js "2025-12-09" |};
  {| id := js "3"; name := js "20251209_151833.mp4"; score := 79; grade := js "B+"; date := js "2025-12-09" |};
  {| id := js "4"; name := js "20251209_142648.mp4"; score := 76; grade := js "B"; date := js "2025-12-09" |}
].

Record Dimension : Type := {
  dimension : jsstring;
  dim_score : Z;
  maxScore : Z
}.

Definition DEMO_DIMENSIONS : list Dimension := [
  {| dimension := js "수업 전문성"; dim_score := 16; maxScore := 20 |};
  {| dimension := js "교수학습 방법"; dim_score := 15; maxScore := 20 |};
  {| dimension := js "판서 및 언어"; dim_score := 12; maxScore := 15 |};
  {| dimension := js "수업 태도"; dim_score := 11; maxScore := 15 |};
  {| dimension := js "학생 참여"; dim_score := 10; maxScore := 15 |};
  {| dimension := js "시간 배분"; dim_score := 7; maxScore := 10 |};
  {| dimension := js "창의성"; dim_score := 3; maxScore := 5 |}
].

End Dashboard.

(** ** Portfolio page: demo sessions *)

Module Portfolio.

Record Session : Type := {
  id : Z;
  date : jsstring;
  video : jsstring;
  score : Z;
  grade : jsstring
}.

Definition DEMO_SESSIONS : list Session := [
  {| id := 1; date := js "2025-12-09"; video := js "20251209_110545.mp4"; score := 84; grade := js "A" |};
  {| id := 2; date := js "2025-12-09"; video := js "20251209_143455.mp4"; score := 81; grade := js "A" |};
  {| id := 3; date := js "2025-12-09"; video := js "20251209_151833.mp4"; score := 79; grade := js "B+" |};
  {| id := 4; date := js "2025-12-09"; video := js "20251209_142648.mp4"; score := 76; grade := js "B" |};
  {| id := 5; date := js "2025-12-09"; video := js "20251209_104016.mp4"; score := 75; grade := js "B" |};
  {| id := 6; date := js "2025-12-09"; video := js "20251209_102400.mp4"; score := 73; grade := js "B" |}
].

Record Badge : Type := {
  badge_id : Z;
  icon : jsstring;
  name : jsstring;
  desc : jsstring;
  earned : bool;
  badge_date : option jsstring
}.

Definition DEMO_BADGES : list Badge := [
  {| badge_id := 1; icon := js "🌟"; name := js "첫 분석"; desc := js "첫 수업 분석 완료";
     earned := true; badge_date := Some (js "2025-12-09") |};
  {| badge_id := 2; icon := js "🎯"; name := js "목표 달성"; desc := js "80점 이상 달성";
     earned := true; badge_date := Some (js "2025-12-09") |};
  {| badge_id := 3; icon := js "📈"; name := js "성장중"; desc := js "3회 이상 분석 완료";
     earned := true; badge_date := Some (js "2025-12-09") |};
  {| badge_id := 4; icon := js "🏆"; name := js "A+ 등급"; desc := js "90점 이상 달성";
     earned := false; badge_date := None |};
  {| badge_id := 5; icon := js "🔥"; name := js "연속 향상"; desc := js "3회 연속 점수 상승";
     earned := false; badge_date := None |};
  {| badge_id := 6; icon := js "💎"; name := js "마스터"; desc := js "10회 분석 완료";
     earned := false; badge_date := None |}
].

End Portfolio.

(** ** AI-coach page: the chat state and [sendMessage] *)

Module AICoach.

Definition SUGGESTION_QUESTIONS : list jsstring := [
  js "이번 수업에서 어떤 점을 개선할 수 있을까요?";
  js "효과적인 발문 기법을 알려주세요";
  js "학생 참여를 높이는 방법은?";
  js "시간 배분을 어떻게 개선할 수 있나요?";
  js "습관어를 줄이는 방법을 알려주세요"
].

Inductive Role : Type := user | assistant.

Record Message : Type := {
  id : jsstring;
  role : Role;
  content : jsstring;
  timestamp : jsstring
}.

(** The [useState] cells of the component. *)
Record State : Type := {
  messages : list Message;
  inputValue : jsstring;
  isLoading : bool;
  sessionId : option jsstring;
  suggestions : list jsstring
}.

(** The two readings of the clock: [Date.now()] and
    [new Date().toISOString()]. *)
Record Clock : Type := {
  now : Z;
  iso : jsstring
}.

Definition greeting : jsstring :=
  js ("안녕하세요! 저는 GAIM Lab의 AI 수업 코치입니다. 🎓" ++ nl ++ nl
      ++ "수업 분석 결과에 대한 질문이나, 수업 역량 향상을 위한 조언이 필요하시면 언제든 물어보세요!"
      ++ nl ++ nl ++ "어떤 도움이 필요하신가요?")%string.

Definition initial (c : Clock) : State := {|
  messages := [ {| id := js "1"; role := assistant; content := greeting;
                   timestamp := iso c |} ];
  inputValue := [];
  isLoading := false;
  sessionId := None;
  suggestions := firstn 3 SUGGESTION_QUESTIONS
|}.

(** *** The local responder *)

Definition response_question : jsstring :=
  js ("효과적인 발문 기법으로는:" ++ nl ++ nl
      ++ "1. **개방형 질문 활용**: " ++ dq ++ "왜 그렇게 생각하나요?" ++ dq
      ++ " 같은 질문으로 사고를 확장시키세요." ++ nl
      ++ "2. **대기 시간 확보**: 질문 후 3-5초 기다려 학생들이 생각할 시간을 주세요." ++ nl
      ++ "3. **연쇄 질문**: 학생 답변에 이어지는 후속 질문으로 심화 학습을 유도하세요.")%string.

Definition response_engagement : jsstring :=
  js ("학생 참여를 높이려면:" ++ nl ++ nl
      ++ "1. **짝토의/모둠활동**: 모든 학생이 발언 기회를 갖도록 합니다." ++ nl
      ++ "2. **Think-Pair-Share**: 개별 사고 → 짝 토의 → 전체 공유" ++ nl
      ++ "3. **실시간 피드백**: 학생 반응에 즉각적으로 반응해 주세요.")%string.

Definition response_time : jsstring :=
  js ("시간 배분 개선 방법:" ++ nl ++ nl
      ++ "1. **도입 5분, 전개 30분, 정리 10분** 기본 틀을 유지하세요." ++ nl
      ++ "2. **타이머 활용**: 각 활동에 시간을 할당하세요." ++ nl
      ++ "3. **우선순위 설정**: 핵심 내용에 집중하고 부가 내용은 유연하게 조절하세요.")%string.

Definition response_filler : jsstring :=
  js ("습관어를 줄이려면:" ++ nl ++ nl
      ++ "1. **녹화 분석**: 자신의 수업을 녹화해서 습관어를 파악하세요." ++ nl
      ++ "2. **의도적 멈춤**: 습관어 대신 잠시 멈추는 연습을 하세요." ++ nl
      ++ "3. **연습, 연습**: 발표 연습을 통해 의식적으로 개선하세요.")%string.

Definition response_default : jsstring :=
  js ("좋은 질문입니다! 수업 역량 향상을 위해 몇 가지 팁을 드릴게요:" ++ nl ++ nl
      ++ "1. **자기 분석**: 정기적으로 수업을 녹화하고 분석해 보세요." ++ nl
      ++ "2. **동료 피드백**: 동료 교사의 수업을 참관하고 피드백을 나누세요." ++ nl
      ++ "3. **교육 이론 학습**: 최신 교수법을 지속적으로 학습하세요." ++ nl ++ nl
      ++ "더 구체적인 질문이 있으시면 말씀해 주세요!")%string.

(** The object literal [responses]; its five keys, ['default'] among
    them, are what [Object.entries] enumerates, in this order. *)
Definition responses : list (jsstring * jsstring) := [
  (js "발문", response_question);
  (js "참여", response_engagement);
  (js "시간", response_time);
  (js "습관어", response_filler);
  (js "default", response_default)
].

(** The [for ... of Object.entries(responses)] loop with its early
    [return]; [None] when the loop runs to its end. *)
Fixpoint scan (question : jsstring) (entries : list (jsstring * jsstring))
  : option jsstring :=
  match entries with
  | [] => None
  | (keyword, response) :: rest =>
      if includes question keyword then Some response else scan question rest
  end.

Definition generateFallbackResponse (question : jsstring) : jsstring :=
  match scan question responses with
  | Some response => response
  | None => response_default          (* return responses.default *)
  end.

(** *** A state-and-exception monad for the body of [sendMessage] *)

Inductive Completion (A : Type) : Type :=
| Normal (a : A)
| Thrown.
Arguments Normal {A} a.
Arguments Thrown {A}.

Definition M (A : Type) : Type := State -> State * Completion A.

Definition ret {A : Type} (a : A) : M A := fun s => (s, Normal a).

Definition throw {A : Type} : M A := fun s => (s, Thrown).

Definition bind {A B : Type} (m : M A) (k : A -> M B) : M B :=
  fun s =>
    match m s with
    | (s', Normal a) => k a s'
    | (s', Thrown) => (s', Thrown)
    end.

Notation "x <- m ;; k" := (bind m (fun x => k))
  (at level 61, m at next level, right associativity).
Notation "m ;; k" := (bind m (fun _ => k))
  (at level 61, right associativity).

(** [try { body } catch { handler } finally { final }]. *)
Definition try_catch_finally {A : Type} (body handler : M A) (final : M unit)
  : M A :=
  fun s =>
    let '(s1, r1) := body s in
    let '(s2, r2) :=
      match r1 with
      | Normal a => (s1, Normal a)
      | Thrown => handler s1
      end in
    match final s2 with
    | (s3, Normal _) => (s3, r2)
    | (s3, Thrown) => (s3, Thrown)
    end.

Definition setMessages (f : list Message -> list Message) : M unit :=
  fun s => ({| messages := f (messages s); inputValue := inputValue s;
               isLoading := isLoading s; sessionId := sessionId s;
               suggestions := suggestions s |}, Normal tt).

Definition setInputValue (v : jsstring) : M unit :=
  fun s => ({| messages := messages s; inputValue := v;
               isLoading := isLoading s; sessionId := sessionId s;
               suggestions := suggestions s |}, Normal tt).

Definition setIsLoading (b : bool) : M unit :=
  fun s => ({| messages := messages s; inputValue := inputValue s;
               isLoading := b; sessionId := sessionId s;
               suggestions := suggestions s |}, Normal tt).

Definition setSessionId (v : option jsstring) : M unit :=
  fun s => ({| messages := messages s; inputValue := inputValue s;
               isLoading := isLoading s; sessionId := v;
               suggestions := suggestions s |}, Normal tt).

Definition setSuggestions (v : list jsstring) : M unit :=
  fun s => ({| messages := messages s; inputValue := inputValue s;
               isLoading := isLoading s; sessionId := sessionId s;
               suggestions := v |}, Normal tt).

(** *** The request and what comes back *)

Record Request : Type := {
  req_session_id : option jsstring;
  req_message : jsstring;
  req_analysis_id : option jsstring
}.

Record ReplyMessage : Type := {
  reply_content : jsstring;
  reply_timestamp : jsstring
}.

(** The parsed body [data]; a field that is absent is [None]. *)
Record Reply : Type := {
  session_id : option jsstring;
  message : option ReplyMessage;
  reply_suggestions : option (list jsstring)
}.

(** [await fetch(...)] either rejects or gives a response with its [ok]
    flag; [await response.json()] gives [data], or rejects ([None]). *)
Inductive Response : Type :=
| Rejected
| Received (ok : bool) (body : option Reply).

(** The guard of the first line: [!messageText.trim() || isLoading]. *)
Definition guard (st : State) (messageText : jsstring) : bool :=
  negb (truthy (trim messageText)) || isLoading st.

(** [sendMessage] up to its [await fetch]: the state it leaves and the
    request it issues, if any. *)
Definition sendMessage_begin (analysisId : option jsstring) (st : State)
    (messageText : jsstring) (c : Clock) : State * option Request :=
  if guard st messageText then (st, None)
  else
    let userMessage := {| id := toString (now c); role := user;
                          content := messageText; timestamp := iso c |} in
    let body :=
      setMessages (fun prev => prev ++ [userMessage]) ;;
      setInputValue [] ;;
      setIsLoading true ;;
      setSuggestions [] in
    (fst (body st),
     Some {| req_session_id := sessionId st; req_message := messageText;
             req_analysis_id := analysisId |}).

(** The [try] block once the fetch has settled. *)
Definition try_block (r : Response) (c : Clock) : M unit :=
  match r with
  | Rejected => throw
  | Received false _ => throw                      (* !response.ok *)
  | Received true None => throw                    (* response.json() rejects *)
  | Received true (Some data) =>
      setSessionId (session_id data) ;;
      match message data with
      | None => throw                              (* data.message.content *)
      | Some m =>
          let assistantMessage :=
            {| id := toString (now c) ++ js "-assistant"; role := assistant;
               content := reply_content m; timestamp := reply_timestamp m |} in
          setMessages (fun prev => prev ++ [assistantMessage]) ;;
          setSuggestions (match reply_suggestions data with
                          | Some l => l
                          | None => []
                          end)
      end
  end.

Definition catch_block (messageText : jsstring) (c : Clock) : M unit :=
  let fallbackMessage :=
    {| id := toString (now c) ++ js "-assistant"; role := assistant;
       content := generateFallbackResponse messageText; timestamp := iso c |} in
  setMessages (fun prev => prev ++ [fallbackMessage]) ;;
  setSuggestions (firstn 3 SUGGESTION_QUESTIONS).

(** [sendMessage] from the point where the fetch settles. *)
Definition sendMessage_settle (messageText : jsstring) (r : Response)
    (c : Clock) : M unit :=
  try_catch_finally (try_block r c) (catch_block messageText c)
                    (setIsLoading false).

(** A whole call of [sendMessage]: [c0] is the clock when it is called,
    [r] what the fetch gives and [c1] the clock when it settles. *)
Definition sendMessage (analysisId : option jsstring) (messageText : jsstring)
    (c0 : Clock) (r : Response) (c1 : Clock) : M unit :=
  fun st =>
    match sendMessage_begin analysisId st messageText c0 with
    | (st', None) => (st', Normal tt)
    | (st', Some _) => sendMessage_settle messageText r c1 st'
    end.

(** The [try] block throws exactly on these outcomes of the request. *)
Definition backend_failed (r : Response) : bool :=
  match r with
  | Rejected => true
  | Received false _ => true
  | Received true None => true
  | Received true (Some data) =>
      match message data with None => true | Some _ => false end
  end.

(** *** The page as a transition system

    What can happen to the page: the user sends a text (the button, the
    Enter key, a suggestion chip or a quick action), types into the
    input, or the oldest outstanding fetch settles.  [pending] holds the
    message text of every call that is suspended at its [await].  Each
    handler reads the state of the render it belongs to, and React
    renders again between two events. *)

Record Page : Type := {
  state : State;
  pending : list jsstring
}.

Inductive Action : Type :=
| Send (messageText : jsstring) (c : Clock)
| Typing (text : jsstring)
| Settle (r : Response) (c : Clock).

Definition step (analysisId : option jsstring) (p : Page) (a : Action) : Page :=
  match a with
  | Send messageText c =>
      match sendMessage_begin analysisId (state p) messageText c with
      | (st', None) => {| state := st'; pending := pending p |}
      | (st', Some _) => {| state := st'; pending := pending p ++ [messageText] |}
      end
  | Typing text =>
      {| state := fst (setInputValue text (state p)); pending := pending p |}
  | Settle r c =>
      match pending p with
      | [] => p
      | messageText :: rest =>
          {| state := fst (sendMessage_settle messageText r c (state p));
             pending := rest |}
      end
  end.

Definition run (analysisId : option jsstring) (p : Page) (l : list Action) : Page :=
  fold_left (step analysisId) l p.

Definition start (c : Clock) : Page := {| state := initial c; pending := [] |}.

(** The page invariant: a call is suspended at its [await] exactly while
    the page is loading, and then it is the only one. *)
Definition in_flight_ok (p : Page) : Prop :=
  (isLoading (state p) = false /\ pending p = []) \/
  (isLoading (state p) = true /\ exists messageText, pending p = [messageText]).

End AICoach.

(** ** Upload page: file validation, progress and the analysis steps *)

Module Upload.

Record File : Type := {
  name : jsstring;
  type : jsstring;
  size : Z
}.

Inductive Status : Type :=
| idle | uploading | analyzing | completed | status_error.

(** The [useState] cells of the component. *)
Record State : Type := {
  file : option File;
  isDragging : bool;
  uploadProgress : Z;
  analysisProgress : Z;
  status : Status;
  error : option jsstring;
  analysisId : option jsstring
}.

Definition initial : State := {|
  file := None; isDragging := false; uploadProgress := 0;
  analysisProgress := 0; status := idle; error := None; analysisId := None
|}.

Definition setFile (v : option File) (s : State) : State :=
  {| file := v; isDragging := isDragging s; uploadProgress := uploadProgress s;
     analysisProgress := analysisProgress s; status := status s;
     error := error s; analysisId := analysisId s |}.

Definition setIsDragging (v : bool) (s : State) : State :=
  {| file := file s; isDragging := v; uploadProgress := uploadProgress s;
     analysisProgress := analysisProgress s; status := status s;
     error := error s; analysisId := analysisId s |}.

Definition setUploadProgress (f : Z -> Z) (s : State) : State :=
  {| file := file s; isDragging := isDragging s;
     uploadProgress := f (uploadProgress s);
     analysisProgress := analysisProgress s; status := status s;
     error := error s; analysisId := analysisId s |}.

Definition setAnalysisProgress (v : Z) (s : State) : State :=
  {| file := file s; isDragging := isDragging s;
     uploadProgress := uploadProgress s;
     analysisProgress := v; status := status s;
     error := error s; analysisId := analysisId s |}.

Definition setStatus (v : Status) (s : State) : State :=
  {| file := file s; isDragging := isDragging s;
     uploadProgress := uploadProgress s;
     analysisProgress := analysisProgress s; status := v;
     error := error s; analysisId := analysisId s |}.

Definition setError (v : option jsstring) (s : State) : State :=
  {| file := file s; isDragging := isDragging s;
     uploadProgress := uploadProgress s;
     analysisProgress := analysisProgress s; status := status s;
     error := v; analysisId := analysisId s |}.

Definition setAnalysisId (v : option jsstring) (s : State) : State :=
  {| file := file s; isDragging := isDragging s;
     uploadProgress := uploadProgress s;
     analysisProgress := analysisProgress s; status := status s;
     error := error s; analysisId := v |}.

(** *** [isValidVideo] *)

Definition validTypes : list jsstring := [
  js "video/mp4"; js "video/avi"; js "video/quicktime";
  js "video/x-matroska"; js "video/webm"
].

(** [Array.prototype.includes] on an array of strings. *)
Definition Array_includes (l : list jsstring) (x : jsstring) : bool :=
  existsb (JsString.eqb x) l.

(** The alternatives of the group in [/\.(mp4|avi|mov|mkv|webm)$/i]. *)
Definition extensions : list jsstring := [
  js "mp4"; js "avi"; js "mov"; js "mkv"; js "webm"
].

(** [regex.test(name)]: a dot and one alternative, up to the case of
    ASCII letters, right before the end of the input ([$] without the
    [m] flag). *)
Definition regex_test (name : jsstring) : bool :=
  existsb (fun ext => endsWith (toLowerAscii name) (js "." ++ ext)) extensions.

Definition isValidVideo (f : File) : bool :=
  Array_includes validTypes (type f) || regex_test (name f).

Definition drop_error : jsstring :=
  js "지원되지 않는 파일 형식입니다. MP4, AVI, MOV, MKV 파일을 업로드하세요.".

Definition select_error : jsstring := js "지원되지 않는 파일 형식입니다.".

(** [handleDrop]; [droppedFile] is [e.dataTransfer.files[0]], [None] when
    nothing that is a file was dropped. *)
Definition handleDrop (droppedFile : option File) (s : State) : State :=
  let s := setIsDragging false s in
  match droppedFile with
  | Some f =>
      if isValidVideo f then setError None (setFile (Some f) s)
      else setError (Some drop_error) s
  | None => setError (Some drop_error) s
  end.

Definition handleFileSelect (selectedFile : option File) (s : State) : State :=
  match selectedFile with
  | Some f =>
      if isValidVideo f then setError None (setFile (Some f) s)
      else setError (Some select_error) s
  | None => setError (Some select_error) s
  end.

(** *** The simulated upload progress of [handleUpload] *)

(** The updater that the interval passes to [setUploadProgress]; at 90
    or more it also clears the interval and keeps the value. *)
Definition tick (prev : Z) : Z :=
  if prev >=? 90 then prev else prev + 10.

(** [handleUpload] up to its [await fetch]; nothing happens without a
    file. *)
Definition handleUpload_begin (s : State) : State :=
  match file s with
  | None => s
  | Some _ => setError None (setUploadProgress (fun _ => 0) (setStatus uploading s))
  end.

Definition on_tick (s : State) : State := setUploadProgress tick s.

(** The two statements after the fetch has resolved:
    [clearInterval(uploadInterval); setUploadProgress(100)]. *)
Definition handleUpload_resolved (s : State) : State :=
  setUploadProgress (fun _ => 100) s.

(** The states the page goes through during one upload in which the
    interval fires [n] times before the fetch resolves. *)
Fixpoint ticking (n : nat) (s : State) : list State :=
  match n with
  | O => []
  | S n' => let s' := on_tick s in s' :: ticking n' s'
  end.

Definition ticking_states (n : nat) (s : State) : list State :=
  let s0 := handleUpload_begin s in
  s0 :: ticking n s0.

Definition upload_states (n : nat) (s : State) : list State :=
  let l := ticking_states n s in
  l ++ [handleUpload_resolved (last l (handleUpload_begin s))].

(** The upload progress the page shows while the interval fires [n]
    times (all there is to see when the fetch is rejected: the [catch]
    branch does not touch the progress), and with the 100 of a resolved
    fetch at its end. *)
Definition ticking_trace (n : nat) (s : State) : list Z :=
  map uploadProgress (ticking_states n s).

Definition upload_trace (n : nat) (s : State) : list Z :=
  map uploadProgress (upload_states n s).

(** *** The page and its selection as a transition system *)

Definition handleDragOver (s : State) : State := setIsDragging true s.

Definition handleDragLeave (s : State) : State := setIsDragging false s.

Definition handleReset (s : State) : State :=
  setAnalysisId None
    (setError None
       (setAnalysisProgress 0
          (setUploadProgress (fun _ => 0) (setStatus idle (setFile None s))))).

(** What can happen on the page before the analysis starts; [Change] is
    the button of the file preview, which clears the selection. *)
Inductive Action : Type :=
| DragOver
| DragLeave
| Drop (droppedFile : option File)
| Select (selectedFile : option File)
| Change
| StartUpload
| Tick
| Resolved
| Reset.

Definition step (s : State) (a : Action) : State :=
  match a with
  | DragOver => handleDragOver s
  | DragLeave => handleDragLeave s
  | Drop f => handleDrop f s
  | Select f => handleFileSelect f s
  | Change => setFile None s
  | StartUpload => handleUpload_begin s
  | Tick => on_tick s
  | Resolved => handleUpload_resolved s
  | Reset => handleReset s
  end.

Definition run (l : list Action) : State := fold_left step l initial.

(** The selection, when there is one, is a file that [isValidVideo]
    accepted. *)
Definition selection_valid (s : State) : Prop :=
  match file s with
  | Some f => isValidVideo f = true
  | None => True
  end.

(** *** The WebSocket subscriber of [startAnalysis] *)

(** [JSON.parse(event.data)] by its [type] field; [EvOther] is any other
    message. *)
Inductive WsEvent : Type :=
| EvProgress (progress : Z)
| EvComplete
| EvError (error : jsstring)
| EvOther.

(** The page together with the socket: [ws_open] is false once
    [ws.close()] has been called, after which the browser dispatches no
    further [message] event. *)
Record Subscriber : Type := {
  page : State;
  ws_open : bool
}.

(** [startAnalysis] up to the opening of the socket. *)
Definition startAnalysis (s : State) : Subscriber :=
  {| page := setAnalysisProgress 0 (setStatus analyzing s); ws_open := true |}.

Definition onmessage (ev : WsEvent) (c : Subscriber) : Subscriber :=
  match ev with
  | EvProgress p =>
      {| page := setAnalysisProgress p (page c); ws_open := ws_open c |}
  | EvComplete =>
      {| page := setAnalysisProgress 100 (setStatus completed (page c));
         ws_open := false |}
  | EvError e =>
      {| page := setError (Some e) (setStatus status_error (page c));
         ws_open := false |}
  | EvOther => c
  end.

(** Delivery of one server event: it reaches [onmessage] only while the
    socket is open. *)
Definition deliver (c : Subscriber) (ev : WsEvent) : Subscriber :=
  if ws_open c then onmessage ev c else c.

Definition is_terminal (ev : WsEvent) : bool :=
  match ev with
  | EvComplete | EvError _ => true
  | _ => false
  end.

(** The events that [onmessage] really handles, and the subscriber after
    each of them. *)
Fixpoint handled (c : Subscriber) (evs : list WsEvent) : list WsEvent :=
  match evs with
  | [] => []
  | ev :: rest =>
      if ws_open c then ev :: handled (onmessage ev c) rest
      else handled c rest
  end.

Fixpoint states (c : Subscriber) (evs : list WsEvent) : list Subscriber :=
  match evs with
  | [] => []
  | ev :: rest => let c' := deliver c ev in c' :: states c' rest
  end.

(** The progress values the page shows: the one [startAnalysis] sets and
    the one after each delivered event. *)
Definition observed (s : State) (evs : list WsEvent) : list Z :=
  let c := startAnalysis s in
  map (fun c => analysisProgress (page c)) (c :: states c evs).

(** *** The step list shown while analysing *)

Record StepProps : Type := {
  label : jsstring;
  step_completed : bool;
  active : bool
}.

Definition analysis_steps (analysisProgress : Z) : list StepProps := [
  {| label := js "프레임 추출";
     step_completed := analysisProgress >=? 30;
     active := (analysisProgress >? 0) && (analysisProgress <? 30) |};
  {| label := js "음성 인식 (STT)";
     step_completed := analysisProgress >=? 50;
     active := (analysisProgress >=? 30) && (analysisProgress <? 50) |};
  {| label := js "감정 분석";
     step_completed := analysisProgress >=? 70;
     active := (analysisProgress >=? 50) && (analysisProgress <? 70) |};
  {| label := js "7차원 평가";
     step_completed := analysisProgress >=? 90;
     active := (analysisProgress >=? 70) && (analysisProgress <? 90) |};
  {| label := js "리포트 생성";
     step_completed := analysisProgress >=? 100;
     active := (analysisProgress >=? 90) && (analysisProgress <? 100) |}
].

(** The indicator of [AnalysisStep]:
    [completed ? '✓' : active ? spinner : '○']. *)
Inductive Indicator : Type := check_mark | spinner | circle.

Definition AnalysisStep (p : StepProps) : Indicator :=
  if step_completed p then check_mark
  else if active p then spinner else circle.

(** The props of the [i]-th step of the list, counted from 0. *)
Definition step_at (i : nat) (analysisProgress : Z) : option StepProps :=
  nth_error (analysis_steps analysisProgress) i.

Definition completed_at (i : nat) (analysisProgress : Z) : bool :=
  match step_at i analysisProgress with
  | Some p => step_completed p
  | None => false
  end.

Definition active_at (i : nat) (analysisProgress : Z) : bool :=
  match step_at i analysisProgress with
  | Some p => active p
  | None => false
  end.

Definition progress_of (c : Subscriber) : Z := analysisProgress (page c).

(** The subscriber after a whole list of server events. *)
Definition after (c : Subscriber) (evs : list WsEvent) : Subscriber :=
  fold_left deliver evs c.

(** The values the simulated upload progress takes before the upload
    has resolved: the multiples of 10 from 0 to 90. *)
Definition on_grid (v : Z) : Prop := exists k, 0 <= k <= 9 /\ v = 10 * k.

End Upload.

(** ** Modelled parts that the client source does not contain *)

Module Grades.






(** Modelled from the spec: the thresholds that section 4.5 gives as an
    illustration of the table, as far as it spells them out; below 70
    the illustration is silent. *)
Definition illustrated_table (total : Z) : option jsstring :=
  if total >=? 90 then Some (js "A+")
  else if total >=? 80 then Some (js "A")
  else if total >=? 70 then Some (js "B+")
  else None.

(** Every (total score, grade) pair that a page of the client shows from
    its own data. *)
Definition displayed : list (Z * jsstring) :=
  (Analysis.total_score (Analysis.evaluation Analysis.DEMO_RESULT),
   Analysis.grade (Analysis.evaluation Analysis.DEMO_RESULT))
  :: map (fun r => (Dashboard.score r, Dashboard.grade r)) Dashboard.DEMO_RECENT
  ++ map (fun s => (Portfolio.score s, Portfolio.grade s)) Portfolio.DEMO_SESSIONS.

End Grades.

Module CoachSpec.

(** The responder as the specification words it: an ordered table of
    (pattern, response) pairs, evaluated with a first-match policy, and
    a default answer when no pattern matches.  It is compared with
    [AICoach.generateFallbackResponse] below. *)
Definition keyword_table : list (jsstring * jsstring) := [
  (js "발문", AICoach.response_question);
  (js "참여", AICoach.response_engagement);
  (js "시간", AICoach.response_time);
  (js "습관어", AICoach.response_filler)
].

Fixpoint first_match (message : jsstring) (table : list (jsstring * jsstring))
  : option jsstring :=
  match table with
  | [] => None
  | (pattern, response) :: rest =>
      if includes message pattern then Some response
      else first_match message rest
  end.

Definition responder (message : jsstring) : jsstring :=
  match first_match message keyword_table with
  | Some response => response
  | None => AICoach.response_default
  end.

End CoachSpec.

Module ProgressChannel.

Import Upload.

(** Modelled from the spec: the push path of the Progress Channel, which
    the backend implements and the client only subscribes to.  Sections 3
    and 4.7: the stream of one job delivers a progress event on every
    update of the job's progress, an integer in [0,100] that never
    decreases, and then exactly one terminal event, [complete] or
    [error], after which the server closes the stream.  [contract lo evs]
    checks a stream whose job has progress [lo] when the stream opens. *)
Fixpoint contract (lo : Z) (evs : list WsEvent) : bool :=
  match evs with
  | [] => false
  | [EvComplete] => true
  | [EvError _] => true
  | EvProgress p :: rest => (lo <=? p) && (p <=? 100) && contract p rest
  | _ => false
  end.

End ProgressChannel.

(** ** More of the pages: handlers and views beside the ones above *)

Module AICoachView.

Import AICoach.

(** The part of a keyboard event that [handleKeyPress] reads. *)
Record KeyEvent : Type := {
  key : jsstring;
  shiftKey : bool
}.

(** [handleKeyPress]: the state, the request issued if any, and whether
    [e.preventDefault()] was called. *)
Definition handleKeyPress (analysisId : option jsstring) (e : KeyEvent)
    (st : State) (c : Clock) : State * option Request * bool :=
  if JsString.eqb (key e) (js "Enter") && negb (shiftKey e)
  then (sendMessage_begin analysisId st (inputValue st) c, true)
  else ((st, None), false).

(** [String.prototype.split] with a separator of one code unit. *)
Fixpoint split (sep : Z) (s : jsstring) : list jsstring :=
  match s with
  | [] => [[]]
  | c :: s' =>
      if c =? sep then [] :: split sep s'
      else match split sep s' with
           | piece :: pieces => (c :: piece) :: pieces
           | [] => [[c]]
           end
  end.

(** [Array.prototype.join] with the same separator. *)
Fixpoint join (sep : Z) (pieces : list jsstring) : jsstring :=
  match pieces with
  | [] => []
  | [piece] => piece
  | piece :: rest => piece ++ sep :: join sep rest
  end.

(** The paragraphs a message is rendered as:
    [message.content.split('\n')], one [<p>] for each. *)
Definition paragraphs (m : Message) : list jsstring := split 10 (content m).

(** Who speaks at position [i] of a conversation that opens with the
    coach's greeting and then takes turns. *)
Definition turn_of (i : nat) : Role :=
  if Nat.even i then assistant else user.

End AICoachView.

Module UploadFlow.

Import Upload.

Definition upload_failed : jsstring := js "업로드 실패".

Definition upload_error_default : jsstring := js "업로드 중 오류가 발생했습니다".

Definition analysis_failed : jsstring := js "분석 실패".

(** What the upload request of [handleUpload] gives: the fetch rejects
    with an error of some message, the response is not [ok], the body
    cannot be used ([response.json()] rejects, or reading [data.id]
    throws on a null body: an error of some message again), or the body
    is parsed and its [id] field read. *)
Inductive UploadOutcome : Type :=
| FetchRejects (message : jsstring)
| NotOk
| JsonRejects (message : jsstring)
| Uploaded (id : option jsstring).

(** The [catch] branch of [handleUpload]:
    [setStatus('error'); setError(err.message || '...')]. *)
Definition catch_upload (message : jsstring) (s : State) : State :=
  setError (Some (if truthy message then message else upload_error_default))
           (setStatus status_error s).

(** What the analyze request of [startAnalysis] gives; the response is
    not looked at, only a rejection matters. *)
Inductive AnalyzeOutcome : Type :=
| AnalyzeRejects
| AnalyzeResponds.

(** How the page follows the analysis afterwards. *)
Inductive Channel : Type :=
| NoChannel
| Socket
| Polling.

(** The two updates at the top of [startAnalysis]. *)
Definition startAnalysis_begin (s : State) : State :=
  setAnalysisProgress 0 (setStatus analyzing s).

(** The [try] block of [startAnalysis]: a rejected request or a
    [WebSocket] constructor that throws ([socket_ok = false]) lead to the
    [catch] branch, which polls. *)
Definition startAnalysis_channel (a : AnalyzeOutcome) (socket_ok : bool) : Channel :=
  match a with
  | AnalyzeRejects => Polling
  | AnalyzeResponds => if socket_ok then Socket else Polling
  end.

(** The page after [n] firings of the upload interval. *)
Definition after_ticks (n : nat) (s : State) : State := last (ticking n s) s.

(** A whole call of [handleUpload] during which the interval fires [n]
    times before the upload request settles. *)
Definition handleUpload (n : nat) (o : UploadOutcome) (a : AnalyzeOutcome)
    (socket_ok : bool) (s : State) : State * Channel :=
  match file s with
  | None => (s, NoChannel)
  | Some _ =>
      let s1 := after_ticks n (handleUpload_begin s) in
      match o with
      | FetchRejects message => (catch_upload message s1, NoChannel)
      | NotOk =>
          (catch_upload upload_failed (handleUpload_resolved s1), NoChannel)
      | JsonRejects message =>
          (catch_upload message (handleUpload_resolved s1), NoChannel)
      | Uploaded id =>
          (startAnalysis_begin (setAnalysisId id (handleUpload_resolved s1)),
           startAnalysis_channel a socket_ok)
      end
  end.

(** *** [pollAnalysisStatus] *)

(** What one status request gives: it fails (rejected, or the body is
    not JSON), or it brings [data.status] and [data.progress]. *)
Inductive PollReply : Type :=
| PollFails
| PollStatus (status : jsstring) (progress : Z).

(** The page while it polls: [interval_on] is false once
    [clearInterval(interval)] has been called, [outstanding] counts the
    status requests that have been sent and not yet answered. *)
Record Poller : Type := {
  polled : State;
  interval_on : bool;
  outstanding : nat
}.

Definition pollAnalysisStatus (s : State) : Poller :=
  {| polled := s; interval_on := true; outstanding := 0 |}.

(** The body of the interval callback from the point where its request
    has been answered. *)
Definition on_reply (r : PollReply) (p : Poller) : Poller :=
  match r with
  | PollFails =>
      {| polled := polled p; interval_on := interval_on p;
         outstanding := Nat.pred (outstanding p) |}
  | PollStatus st progress =>
      let s1 := setAnalysisProgress progress (polled p) in
      if JsString.eqb st (js "completed") then
        {| polled := setStatus completed s1; interval_on := false;
           outstanding := Nat.pred (outstanding p) |}
      else if JsString.eqb st (js "failed") then
        {| polled := setError (Some analysis_failed) (setStatus status_error s1);
           interval_on := false; outstanding := Nat.pred (outstanding p) |}
      else
        {| polled := s1; interval_on := interval_on p;
           outstanding := Nat.pred (outstanding p) |}
  end.

(** The interval fires (and its callback sends a request) only while it
    has not been cleared; a reply arrives only for a request that is
    outstanding. *)
Inductive PollEvent : Type :=
| Fire
| Arrive (r : PollReply).

Definition poll_step (p : Poller) (e : PollEvent) : Poller :=
  match e with
  | Fire =>
      if interval_on p
      then {| polled := polled p; interval_on := true;
              outstanding := S (outstanding p) |}
      else p
  | Arrive r =>
      match outstanding p with
      | O => p
      | S _ => on_reply r p
      end
  end.

Definition poll_run (p : Poller) (l : list PollEvent) : Poller :=
  fold_left poll_step l p.

(** The requests a run sends: the firings that find the interval on. *)
Fixpoint requests_sent (p : Poller) (l : list PollEvent) : nat :=
  match l with
  | [] => O
  | e :: l' =>
      (match e with
       | Fire => if interval_on p then 1 else 0
       | Arrive _ => 0
       end + requests_sent (poll_step p e) l')%nat
  end.

End UploadFlow.

Module DashboardView.

(** [String.prototype.replace] with a pattern and a replacement of one
    code unit each: only the first occurrence is replaced. *)
Fixpoint replace_first (pat rep : Z) (s : jsstring) : jsstring :=
  match s with
  | [] => []
  | c :: s' => if c =? pat then rep :: s' else c :: replace_first pat rep s'
  end.

(** The [subject] of a row of [RADAR_DATA]:
    [d.dimension.replace(' ', '\n')]. *)
Definition subject (d : Dashboard.Dimension) : jsstring :=
  replace_first 32 10 (Dashboard.dimension d).

Definition count_unit (u : Z) (s : jsstring) : nat :=
  List.length (filter (Z.eqb u) s).

End DashboardView.

Module PortfolioView.

(** The card with the best score: [DEMO_SESSIONS[0]?.score]. *)
Definition best_score (sessions : list Portfolio.Session) : option Z :=
  option_map Portfolio.score (hd_error sessions).

(** The sessions are listed from the highest score down. *)
Fixpoint descending (sessions : list Portfolio.Session) : Prop :=
  match sessions with
  | [] => True
  | s :: rest =>
      Forall (fun s' => Portfolio.score s' <= Portfolio.score s) rest /\
      descending rest
  end.

End PortfolioView.

(** * Properties *)

(** ** JavaScript strings *)

Section JsStringFacts.

Example js_hangul : js "발문" = [48156; 47928].
Proof. reflexivity. Qed.

Example js_emoji : js "🎓" = [55356; 57235].
Proof. reflexivity. Qed.

Example toString_ex : toString 1733742345000 = js "1733742345000".
Proof. vm_compute. reflexivity. Qed.

Example includes_ex :
  includes (js "시간 배분을 어떻게 개선할 수 있나요?") (js "시간") = true.
Proof. vm_compute. reflexivity. Qed.

Example trim_ex : trim (js "  a b  ") = js "a b".
Proof. vm_compute. reflexivity. Qed.

Lemma eqb_eq (s t : jsstring) : JsString.eqb s t = true <-> s = t.
Proof.
  revert t; induction s as [|c s IH]; intros [|d t]; simpl; split;
    try congruence; try reflexivity.
  - intros H. apply andb_true_iff in H as [Hc Hs].
    apply Z.eqb_eq in Hc. apply IH in Hs. congruence.
  - intros H. injection H as -> ->. rewrite Z.eqb_refl. simpl.
    apply IH. reflexivity.
Qed.

Lemma eqb_refl (s : jsstring) : JsString.eqb s s = true.
Proof. apply eqb_eq. reflexivity. Qed.

Lemma startsWith_spec (s kw : jsstring) :
  startsWith s kw = true <-> exists rest, s = kw ++ rest.
Proof.
  revert s; induction kw as [|k kw IH]; intros s; simpl.
  - split; [intros _; exists s; reflexivity | reflexivity].
  - destruct s as [|c s].
    + split; [discriminate | intros [rest H]; discriminate].
    + rewrite andb_true_iff, Z.eqb_eq, IH. split.
      * intros [-> [rest ->]]. exists rest. reflexivity.
      * intros [rest H]. injection H as -> ->. split; [reflexivity|].
        exists rest. reflexivity.
Qed.

Lemma endsWith_spec (s kw : jsstring) :
  endsWith s kw = true <-> exists stem, s = stem ++ kw.
Proof.
  unfold endsWith. rewrite startsWith_spec. split.
  - intros [rest H]. exists (rev rest).
    apply (f_equal (@rev Z)) in H.
    rewrite rev_involutive, rev_app_distr, rev_involutive in H. exact H.
  - intros [stem ->]. exists (rev stem). apply rev_app_distr.
Qed.

Lemma includes_spec (s kw : jsstring) :
  includes s kw = true <-> exists before after, s = before ++ kw ++ after.
Proof.
  induction s as [|c s IH].
  - simpl. rewrite orb_false_r, startsWith_spec. split.
    + intros [rest H]. exists [], rest. exact H.
    + intros [before [after H]]. symmetry in H.
      apply app_eq_nil in H as [-> H]. exists after. symmetry. exact H.
  - change (includes (c :: s) kw)
      with (startsWith (c :: s) kw || includes s kw).
    rewrite orb_true_iff, startsWith_spec, IH. split.
    + intros [[rest H] | [before [after H]]].
      * exists [], rest. exact H.
      * exists (c :: before), after. simpl. congruence.
    + intros [[|b before] [after H]].
      * left. exists after. exact H.
      * right. injection H as _ H. exists before, after. exact H.
Qed.

Lemma trimStart_nil_iff (s : jsstring) :
  trimStart s = [] <-> forallb isWhiteSpace s = true.
Proof.
  induction s as [|c s IH]; simpl.
  - split; reflexivity.
  - destruct (isWhiteSpace c); simpl; [exact IH|].
    split; discriminate.
Qed.

Lemma trimStart_head (s : jsstring) :
  trimStart s = [] \/ exists c t, trimStart s = c :: t /\ isWhiteSpace c = false.
Proof.
  induction s as [|c s IH]; simpl.
  - left. reflexivity.
  - destruct (isWhiteSpace c) eqn:E; [exact IH|].
    right. exists c, s. split; [reflexivity | exact E].
Qed.

(** [trim] gives the empty string exactly on the messages made of white
    space only, the empty one included. *)
Lemma trim_nil_iff (s : jsstring) :
  trim s = [] <-> forallb isWhiteSpace s = true.
Proof.
  unfold trim, trimEnd. split.
  - intros H. apply (f_equal (@rev Z)) in H. rewrite rev_involutive in H.
    simpl in H. apply trimStart_nil_iff in H. rewrite forallb_forall in H.
    destruct (trimStart_head s) as [E | [c [t [E Hc]]]].
    + apply trimStart_nil_iff. exact E.
    + rewrite E in H. specialize (H c). rewrite Hc in H.
      assert (false = true) by (apply H; apply in_rev; rewrite rev_involutive; left; reflexivity).
      discriminate.
  - intros H. apply trimStart_nil_iff in H. rewrite H. reflexivity.
Qed.

Lemma truthy_trim (s : jsstring) :
  truthy (trim s) = false <-> forallb isWhiteSpace s = true.
Proof.
  rewrite <- trim_nil_iff. destruct (trim s); simpl; split; congruence.
Qed.

End JsStringFacts.

(** ** The rubric: evaluations shown by the Analysis and Dashboard pages *)

Section Rubric.

Import Analysis.

Lemma loadAnalysis_falls_back (o : FetchOutcome) :
  o = FetchFailed \/ o = FetchJson None -> loadAnalysis o = DEMO_RESULT.
Proof. intros [-> | ->]; reflexivity. Qed.

Lemma schedule_sums_to_100 :
  fold_right Z.add 0 (map snd schedule) = 100 /\ List.length schedule = 7%nat.
Proof. split; reflexivity. Qed.

(** The README's table also adds up to 100 but gives other maxima to
    three dimensions than the pages do. *)
Lemma README_points_differ :
  fold_right Z.add 0 README_points = 100 /\
  map snd schedule = [20; 20; 15; 15; 15; 10; 5] /\
  README_points <> map snd schedule.
Proof. repeat split. vm_compute. discriminate. Qed.

Lemma DEMO_RESULT_within_max :
  Forall (fun kv => 0 <= score (snd kv) <= max_score (snd kv))
         (dimensions (evaluation DEMO_RESULT)).
Proof. repeat constructor; simpl; lia. Qed.

(** C1 (the code departs from the claim): the evaluation that the Analysis
    page shows from its own data, [DEMO_RESULT], whenever the request fails
    or brings no result, carries [total_score] 84 while its seven dimension
    scores 17, 16, 13, 12, 11, 8 and 4 add up to 81.  The two other parts
    of the claim hold for it: every score is at most its maximum and the
    seven maxima add up to 100. *)
Theorem DEMO_RESULT_total_is_not_the_sum :
  let e := evaluation (loadAnalysis FetchFailed) in
  loadAnalysis (FetchJson None) = loadAnalysis FetchFailed /\
  map (fun kv => (score (snd kv), max_score (snd kv))) (dimensions e)
    = [(17, 20); (16, 20); (13, 15); (12, 15); (11, 15); (8, 10); (4, 5)] /\
  total_score e = 84 /\
  sum_scores e = 81 /\
  total_score e <> sum_scores e /\
  scores_within_max e = true /\
  sum_max_scores e = 100.
Proof.
  cbv zeta. repeat split; try reflexivity.
  vm_compute. discriminate.
Qed.

(** The data the pages hold themselves follow the schedule: the
    evaluation of [DEMO_RESULT] has exactly the seven keys with the
    maxima 20, 20, 15, 15, 15, 10, 5 in this order; [DIMENSION_LABELS]
    has exactly these keys, so every row gets its label; and the rows of
    the Dashboard's [DEMO_DIMENSIONS] carry the same labels and maxima
    in the same order. *)
Lemma own_data_follows_the_schedule :
  key_max (evaluation DEMO_RESULT) = schedule /\
  map fst DIMENSION_LABELS = map fst schedule /\
  map (fun r => (fst (fst r), snd r)) (rows (evaluation DEMO_RESULT))
    = map (fun d => (Some (Dashboard.dimension d), Dashboard.maxScore d))
          Dashboard.DEMO_DIMENSIONS /\
  List.length (dimensions (evaluation DEMO_RESULT)) = 7%nat /\
  fold_right Z.add 0 (map snd schedule) = 100.
Proof.
  repeat match goal with |- _ /\ _ => split end; vm_compute; reflexivity.
Qed.

(** C7, as the code has it (counterexample to the claim as stated): a
    result that the request brings is shown as it is.  Here the body
    carries the seven keys with the maxima of the README's table, 15,
    15, 15, 15, 15, 10, 15: the page displays this evaluation, whose
    maxima are not those of the schedule. *)
Lemma backend_result_is_shown_as_received :
  let r := {|
    id := js "42";
    video_name := js "20251209_143455.mp4";
    created_at := js "2025-12-09T14:34:55";
    evaluation := {|
      total_score := 81;
      grade := js "A";
      dimensions := [
        (js "teaching_expertise", dim 12 15 "");
        (js "teaching_method", dim 12 15 "");
        (js "communication", dim 13 15 "");
        (js "teaching_attitude", dim 12 15 "");
        (js "student_engagement", dim 11 15 "");
        (js "time_management", dim 8 10 "");
        (js "creativity", dim 13 15 "")
      ]
    |}
  |} in
  loadAnalysis (FetchJson (Some r)) = r /\
  map snd (key_max (evaluation (loadAnalysis (FetchJson (Some r)))))
    = [15; 15; 15; 15; 15; 10; 15] /\
  map snd schedule = [20; 20; 15; 15; 15; 10; 5] /\
  key_max (evaluation (loadAnalysis (FetchJson (Some r)))) <> schedule.
Proof.
  cbv zeta. split; [reflexivity|]. split; [reflexivity|]. split; [reflexivity|].
  intros H. apply (f_equal (map snd)) in H. vm_compute in H. discriminate H.
Qed.

(** C7 (amended): the seven dimension identifiers and their maxima are
    the fixed schedule teaching_expertise(20), teaching_method(20),
    communication(15), teaching_attitude(15), student_engagement(15),
    time_management(10), creativity(5), in this order, for every
    evaluation the program displays from its own data: [DEMO_RESULT],
    which the Analysis page shows whenever the request fails or brings
    no result, has exactly these keys with these maxima,
    [DIMENSION_LABELS] has exactly these keys, and the rows of the
    Dashboard's [DEMO_DIMENSIONS] carry the same labels and maxima.  A
    result that the request brings is displayed as received: the page
    shows the schedule's keys and maxima for it exactly when the body
    carries them. *)
Theorem displayed_dimensions_follow_the_schedule_or_the_body (o : FetchOutcome) :
  (key_max (evaluation (loadAnalysis o)) = schedule <->
     o = FetchFailed \/ o = FetchJson None \/
     exists r, o = FetchJson (Some r) /\ key_max (evaluation r) = schedule) /\
  (forall r, o = FetchJson (Some r) -> loadAnalysis o = r) /\
  (o = FetchFailed \/ o = FetchJson None -> loadAnalysis o = DEMO_RESULT) /\
  key_max (evaluation DEMO_RESULT) = schedule /\
  map fst DIMENSION_LABELS = map fst schedule /\
  map (fun r => (fst (fst r), snd r)) (rows (evaluation DEMO_RESULT))
    = map (fun d => (Some (Dashboard.dimension d), Dashboard.maxScore d))
          Dashboard.DEMO_DIMENSIONS /\
  List.length (dimensions (evaluation DEMO_RESULT)) = 7%nat /\
  fold_right Z.add 0 (map snd schedule) = 100.
Proof.
  destruct own_data_follows_the_schedule as [Hd Hrest].
  split; [|split; [|split; [|split; [exact Hd | exact Hrest]]]].
  - destruct o as [|[r|]]; cbn [loadAnalysis]; split.
    + intros _. left. reflexivity.
    + intros _. exact Hd.
    + intros H. right. right. exists r. split; [reflexivity | exact H].
    + intros [H | [H | [r' [H Hk]]]]; try discriminate H.
      injection H as ->. exact Hk.
    + intros _. right. left. reflexivity.
    + intros _. exact Hd.
  - intros r ->. reflexivity.
  - apply loadAnalysis_falls_back.
Qed.

(** The body that carries the schedule is shown with it, and so is the
    page's own data when the request fails. *)
Lemma displayed_dimensions_follow_the_schedule_or_the_body_witness :
  key_max (evaluation (loadAnalysis (FetchJson (Some DEMO_RESULT)))) = schedule /\
  key_max (evaluation (loadAnalysis FetchFailed)) = schedule.
Proof.
  pose proof own_data_follows_the_schedule as [Hd _].
  split.
  - apply (proj1 (displayed_dimensions_follow_the_schedule_or_the_body
                    (FetchJson (Some DEMO_RESULT)))).
    right. right. exists DEMO_RESULT. split; [reflexivity | exact Hd].
  - apply (proj1 (displayed_dimensions_follow_the_schedule_or_the_body FetchFailed)).
    left. reflexivity.
Defined.

End Rubric.

(** ** Grades shown next to total scores *)

Section GradeTable.

Import Grades.



(** The illustration of the table in section 4.5 of the specification
    cannot be the table behind the pages: it puts 73 at B+, where the
    Portfolio shows B. *)
Lemma illustrated_table_at_73 :
  illustrated_table 73 = Some (js "B+") /\ In (73, js "B") displayed.
Proof. split; [reflexivity | vm_compute; tauto]. Qed.


End GradeTable.

(** ** The AI coach: the local responder *)

Section Responder.

Import AICoach.

(** C4: [generateFallbackResponse] is a function of the user message
    alone, defined on every message: it is the first-match evaluation of
    the keyword table '발문', '참여', '시간', '습관어' in this order, with the
    fixed default answer for a message that contains none of the four (the
    fifth key that the loop visits, 'default', gives the default answer
    as well, so it changes nothing).  A message that contains both '발문'
    and '시간' gets the '발문' answer. *)
Theorem generateFallbackResponse_first_match (question : jsstring) :
  generateFallbackResponse question = CoachSpec.responder question /\
  (includes question (js "발문") = true ->
     generateFallbackResponse question = response_question) /\
  (includes question (js "발문") = false ->
   includes question (js "참여") = true ->
     generateFallbackResponse question = response_engagement) /\
  (includes question (js "발문") = false ->
   includes question (js "참여") = false ->
   includes question (js "시간") = true ->
     generateFallbackResponse question = response_time) /\
  (includes question (js "발문") = false ->
   includes question (js "참여") = false ->
   includes question (js "시간") = false ->
   includes question (js "습관어") = true ->
     generateFallbackResponse question = response_filler) /\
  (includes question (js "발문") = false ->
   includes question (js "참여") = false ->
   includes question (js "시간") = false ->
   includes question (js "습관어") = false ->
     generateFallbackResponse question = response_default).
Proof.
  unfold generateFallbackResponse, CoachSpec.responder, responses,
    CoachSpec.keyword_table.
  cbn [scan CoachSpec.first_match].
  destruct (includes question (js "발문")) eqn:E1;
  destruct (includes question (js "참여")) eqn:E2;
  destruct (includes question (js "시간")) eqn:E3;
  destruct (includes question (js "습관어")) eqn:E4;
  destruct (includes question (js "default")) eqn:E5;
  repeat match goal with |- _ /\ _ => split end;
    intros; first [discriminate | reflexivity].
Qed.

(** A message with both '발문' and '시간' in it: the '발문' answer. *)
Lemma generateFallbackResponse_first_match_witness :
  let question := js "발문 시간을 어떻게 배분할까요?" in
  includes question (js "시간") = true /\
  generateFallbackResponse question = response_question.
Proof.
  cbv zeta. split; [vm_compute; reflexivity|].
  refine (proj1 (proj2 (generateFallbackResponse_first_match _)) _).
  vm_compute; reflexivity.
Defined.

End Responder.

(** ** The AI coach: [sendMessage] *)

Section SendMessage.

Import AICoach.

Ltac run_handlers :=
  cbv beta iota zeta delta
    [sendMessage sendMessage_begin sendMessage_settle try_catch_finally
     try_block catch_block bind throw ret setMessages setInputValue
     setIsLoading setSessionId setSuggestions fst snd
     messages inputValue isLoading sessionId suggestions message].

Lemma guard_false (st : State) (messageText : jsstring) :
  guard st messageText = false <->
  truthy (trim messageText) = true /\ isLoading st = false.
Proof.
  unfold guard. rewrite orb_false_iff, negb_false_iff. reflexivity.
Qed.

Lemma guard_true (st : State) (messageText : jsstring) :
  guard st messageText = true <->
  forallb isWhiteSpace messageText = true \/ isLoading st = true.
Proof.
  unfold guard. rewrite orb_true_iff, negb_true_iff, truthy_trim. reflexivity.
Qed.

(** Whatever the request gives, the [finally] block leaves the page not
    loading and the call completes normally. *)
Lemma sendMessage_settle_completes (messageText : jsstring) (r : Response)
    (c : Clock) (st : State) :
  snd (sendMessage_settle messageText r c st) = Normal tt /\
  isLoading (fst (sendMessage_settle messageText r c st)) = false.
Proof.
  destruct r as [|[|] [data|]]; try (split; reflexivity).
  run_handlers. destruct data as [sid [m|] sug]; split; reflexivity.
Qed.

(** [backend_failed] names exactly the outcomes of the request on which
    the [try] block throws. *)
Lemma try_block_throws_iff (r : Response) (c : Clock) (st : State) :
  snd (try_block r c st) = Thrown <-> backend_failed r = true.
Proof.
  destruct r as [|[|] [[sid [m|] sug]|]]; simpl; split;
    intros H; try reflexivity; discriminate H.
Qed.

(** The state a send ends in when its request fails: the [catch] branch
    has run after whatever the [try] block did before it threw. *)
Lemma sendMessage_when_request_fails (analysisId : option jsstring)
    (st : State) (messageText : jsstring) (c0 c1 : Clock) (r : Response) :
  guard st messageText = false ->
  backend_failed r = true ->
  sendMessage analysisId messageText c0 r c1 st =
  ({| messages :=
        messages st ++
        [ {| id := toString (now c0); role := user; content := messageText;
             timestamp := iso c0 |};
          {| id := toString (now c1) ++ js "-assistant"; role := assistant;
             content := generateFallbackResponse messageText;
             timestamp := iso c1 |} ];
      inputValue := [];
      isLoading := false;
      sessionId := match r with
                   | Received true (Some data) => session_id data
                   | _ => sessionId st
                   end;
      suggestions := firstn 3 SUGGESTION_QUESTIONS |}, Normal tt).
Proof.
  intros Hg Hr. unfold sendMessage, sendMessage_begin. rewrite Hg.
  destruct r as [|[|] [[sid [m|] sug]|]]; try discriminate Hr;
    run_handlers; rewrite <- app_assoc; reflexivity.
Qed.

Lemma time_question_answer :
  generateFallbackResponse (js "시간 배분을 어떻게 개선할 수 있나요?") = response_time.
Proof. vm_compute. reflexivity. Qed.

Lemma time_question_passes_trim :
  truthy (trim (js "시간 배분을 어떻게 개선할 수 있나요?")) = true.
Proof. vm_compute. reflexivity. Qed.

(** C3: a chat send whose request fails in any way (the fetch is
    rejected, the status is not ok, the body is not JSON, or the body
    lacks the message) completes normally instead of raising: the
    conversation grows by the user message and one assistant message
    whose content is the local responder's answer to that message, the
    suggestions are the first three entries of [SUGGESTION_QUESTIONS],
    and the page is no longer loading. *)
Theorem sendMessage_failure_falls_back (analysisId : option jsstring)
    (st : State) (messageText : jsstring) (c0 c1 : Clock) (r : Response) :
  guard st messageText = false ->
  backend_failed r = true ->
  let userMessage :=
    {| id := toString (now c0); role := user; content := messageText;
       timestamp := iso c0 |} in
  let fallbackMessage :=
    {| id := toString (now c1) ++ js "-assistant"; role := assistant;
       content := generateFallbackResponse messageText;
       timestamp := iso c1 |} in
  exists st',
    sendMessage analysisId messageText c0 r c1 st = (st', Normal tt) /\
    messages st' = messages st ++ [userMessage; fallbackMessage] /\
    suggestions st' = firstn 3 SUGGESTION_QUESTIONS /\
    suggestions st' =
      [js "이번 수업에서 어떤 점을 개선할 수 있을까요?";
       js "효과적인 발문 기법을 알려주세요";
       js "학생 참여를 높이는 방법은?"] /\
    isLoading st' = false.
Proof.
  intros Hg Hr userMessage fallbackMessage.
  eexists. split; [apply sendMessage_when_request_fails; assumption|].
  cbn [messages suggestions isLoading].
  repeat match goal with |- _ /\ _ => split end; reflexivity.
Qed.

(** A send from the opening state of the page whose fetch is rejected. *)
Lemma sendMessage_failure_falls_back_witness :
  let c0 := {| now := 1765274745000; iso := js "2025-12-09T10:05:45.000Z" |} in
  let c1 := {| now := 1765274745800; iso := js "2025-12-09T10:05:45.800Z" |} in
  let messageText := js "학생 참여를 높이는 방법은?" in
  guard (initial c0) messageText = false /\
  backend_failed Rejected = true /\
  exists st',
    sendMessage None messageText c0 Rejected c1 (initial c0) = (st', Normal tt) /\
    List.length (messages st') = 3%nat /\
    suggestions st' = firstn 3 SUGGESTION_QUESTIONS.
Proof.
  cbv zeta.
  assert (Hg : guard (initial {| now := 1765274745000;
                                 iso := js "2025-12-09T10:05:45.000Z" |})
                     (js "학생 참여를 높이는 방법은?") = false)
    by (vm_compute; reflexivity).
  split; [exact Hg|]. split; [reflexivity|].
  destruct (sendMessage_failure_falls_back None _ _
              {| now := 1765274745000; iso := js "2025-12-09T10:05:45.000Z" |}
              {| now := 1765274745800; iso := js "2025-12-09T10:05:45.800Z" |}
              Rejected Hg eq_refl) as [st' [H1 [H2 [H3 _]]]].
  exists st'. split; [exact H1|]. split; [|exact H3].
  rewrite H2. reflexivity.
Defined.

(** C5, as the code has it (counterexample to the claim as stated): the
    send of the claim, from the opening state with no session id, with
    the fetch rejected, completes normally with the '시간' answer of the
    keyword table, and the session id is still null afterwards. *)
Lemma fallback_send_creates_no_session :
  let c0 := {| now := 1765274745000; iso := js "2025-12-09T10:05:45.000Z" |} in
  let c1 := {| now := 1765274745800; iso := js "2025-12-09T10:05:45.800Z" |} in
  let result :=
    sendMessage None (js "시간 배분을 어떻게 개선할 수 있나요?") c0 Rejected c1
                (initial c0) in
  sessionId (initial c0) = None /\
  snd result = Normal tt /\
  option_map content (nth_error (messages (fst result)) 2) = Some response_time /\
  sessionId (fst result) = None.
Proof. vm_compute. repeat split. Qed.

(** C5 (amended): a chat send with no session id, the message
    "시간 배분을 어떻게 개선할 수 있나요?", no bound analysis and the backend
    unavailable (the fetch is rejected or answers with an error status)
    completes normally; the assistant message appended after the user
    message carries the '시간' answer of the keyword table; and the
    session id is left as it was, null: the page takes a session id only
    from the body of a successful response. *)
Theorem time_question_falls_back_without_session (st : State)
    (c0 c1 : Clock) (r : Response) :
  isLoading st = false ->
  sessionId st = None ->
  (r = Rejected \/ exists body, r = Received false body) ->
  let question := js "시간 배분을 어떻게 개선할 수 있나요?" in
  exists st',
    sendMessage None question c0 r c1 st = (st', Normal tt) /\
    messages st' =
      messages st ++
      [ {| id := toString (now c0); role := user; content := question;
           timestamp := iso c0 |};
        {| id := toString (now c1) ++ js "-assistant"; role := assistant;
           content := response_time; timestamp := iso c1 |} ] /\
    sessionId st' = None /\
    isLoading st' = false.
Proof.
  intros Hl Hs Hr question.
  assert (Hg : guard st question = false).
  { apply guard_false. split; [exact time_question_passes_trim | exact Hl]. }
  assert (Hf : backend_failed r = true).
  { destruct Hr as [-> | [body ->]]; reflexivity. }
  eexists. split; [apply sendMessage_when_request_fails; assumption|].
  cbn [messages sessionId isLoading].
  split; [|split].
  - unfold question. rewrite time_question_answer. reflexivity.
  - destruct Hr as [-> | [body ->]]; exact Hs.
  - reflexivity.
Qed.

Lemma time_question_falls_back_without_session_witness :
  let c0 := {| now := 1765274745000; iso := js "2025-12-09T10:05:45.000Z" |} in
  let c1 := {| now := 1765274745800; iso := js "2025-12-09T10:05:45.800Z" |} in
  exists st',
    sendMessage None (js "시간 배분을 어떻게 개선할 수 있나요?") c0
                (Received false None) c1 (initial c0) = (st', Normal tt) /\
    sessionId st' = None.
Proof.
  cbv zeta.
  destruct (time_question_falls_back_without_session
              (initial {| now := 1765274745000;
                          iso := js "2025-12-09T10:05:45.000Z" |})
              {| now := 1765274745000; iso := js "2025-12-09T10:05:45.000Z" |}
              {| now := 1765274745800; iso := js "2025-12-09T10:05:45.800Z" |}
              (Received false None) eq_refl eq_refl
              (or_intror (ex_intro _ None eq_refl)))
    as [st' [H1 [_ [H2 _]]]].
  exists st'. split; [exact H1 | exact H2].
Defined.

(** *** The guard and the requests in flight *)

Lemma sendMessage_begin_guarded (analysisId : option jsstring) (st : State)
    (messageText : jsstring) (c : Clock) :
  guard st messageText = true ->
  sendMessage_begin analysisId st messageText c = (st, None).
Proof. intros H. unfold sendMessage_begin. rewrite H. reflexivity. Qed.

Lemma sendMessage_begin_issues (analysisId : option jsstring) (st : State)
    (messageText : jsstring) (c : Clock) :
  guard st messageText = false ->
  exists st' req,
    sendMessage_begin analysisId st messageText c = (st', Some req) /\
    isLoading st' = true.
Proof.
  intros H. unfold sendMessage_begin. rewrite H.
  eexists. eexists. split; reflexivity.
Qed.

Lemma step_in_flight_ok (analysisId : option jsstring) (p : Page) (a : Action) :
  in_flight_ok p -> in_flight_ok (step analysisId p a).
Proof.
  intros Hp. destruct a as [messageText c | text | r c]; simpl.
  - destruct (guard (state p) messageText) eqn:Hg.
    + rewrite (sendMessage_begin_guarded _ _ _ _ Hg). destruct p; exact Hp.
    + destruct (sendMessage_begin_issues analysisId _ _ c Hg)
        as [st' [req [E Hl]]].
      rewrite E. right. simpl. split; [exact Hl|].
      apply guard_false in Hg as [_ Hg].
      destruct Hp as [[_ Hp] | [Hp _]]; [|congruence].
      rewrite Hp. exists messageText. reflexivity.
  - exact Hp.
  - destruct (pending p) as [|messageText rest] eqn:E; [exact Hp|].
    left. simpl. split; [apply sendMessage_settle_completes|].
    destruct Hp as [[_ Hp] | [_ [m Hp]]]; congruence.
Qed.

Lemma run_in_flight_ok (analysisId : option jsstring) (l : list Action) (p : Page) :
  in_flight_ok p -> in_flight_ok (run analysisId p l).
Proof.
  revert p. induction l as [|a l IH]; intros p Hp; simpl.
  - exact Hp.
  - apply IH. apply step_in_flight_ok. exact Hp.
Qed.

(** C10: a call of [sendMessage] whose message is empty or made of white
    space only, or that comes while the page is loading, does nothing:
    it issues no request and leaves the messages, the session id, the
    suggestions, the input and the loading flag as they were.  So, from
    the opening state and through any sequence of sends, keystrokes and
    settled requests, at most one request is in flight, and a send that
    comes while one is in flight changes nothing. *)
Theorem sendMessage_guard_is_a_no_op :
  (forall (analysisId : option jsstring) (st : State)
          (messageText : jsstring) (c0 : Clock),
     forallb isWhiteSpace messageText = true \/ isLoading st = true ->
     sendMessage_begin analysisId st messageText c0 = (st, None) /\
     forall (r : Response) (c1 : Clock),
       sendMessage analysisId messageText c0 r c1 st = (st, Normal tt)) /\
  (forall (analysisId : option jsstring) (c : Clock) (l : list Action),
     let p := run analysisId (start c) l in
     (List.length (pending p) <= 1)%nat /\
     (pending p <> [] ->
      forall messageText c0, step analysisId p (Send messageText c0) = p)).
Proof.
  split.
  - intros analysisId st messageText c0 H. apply guard_true in H.
    split; [apply sendMessage_begin_guarded; exact H|].
    intros r c1. unfold sendMessage.
    rewrite (sendMessage_begin_guarded _ _ _ _ H). reflexivity.
  - intros analysisId c l. cbv zeta.
    assert (Hp : in_flight_ok (run analysisId (start c) l)).
    { apply run_in_flight_ok. left. split; reflexivity. }
    revert Hp. generalize (run analysisId (start c) l). intros p Hp.
    destruct Hp as [[Hl Hp] | [Hl [m Hp]]].
    + rewrite Hp. simpl. split; [lia | congruence].
    + split; [rewrite Hp; simpl; lia|]. intros _ messageText c0. simpl.
      rewrite (sendMessage_begin_guarded analysisId (state p) messageText c0).
      * destruct p; reflexivity.
      * apply guard_true. right. exact Hl.
Qed.

(** A blank message on the opening state, and a second send while the
    first is in flight. *)
Lemma sendMessage_guard_is_a_no_op_witness :
  let c := {| now := 1765274745000; iso := js "2025-12-09T10:05:45.000Z" |} in
  sendMessage_begin None (initial c) (js "   ") c = (initial c, None) /\
  let p := run None (start c) [Send (js "학생 참여를 높이는 방법은?") c] in
  pending p = [js "학생 참여를 높이는 방법은?"] /\
  step None p (Send (js "습관어를 줄이는 방법을 알려주세요") c) = p.
Proof.
  cbv zeta. split.
  - apply (proj1 sendMessage_guard_is_a_no_op). left. vm_compute. reflexivity.
  - split; [vm_compute; reflexivity|].
    apply (proj2 sendMessage_guard_is_a_no_op None
             {| now := 1765274745000; iso := js "2025-12-09T10:05:45.000Z" |}
             [Send (js "학생 참여를 높이는 방법은?")
                   {| now := 1765274745000;
                      iso := js "2025-12-09T10:05:45.000Z" |}]).
    vm_compute. discriminate.
Defined.

End SendMessage.

(** ** The upload page: the step list *)

Section AnalysisSteps.

Import Upload.

(** C6, as the code has it (counterexample to the claim as stated): at
    progress 20, and up to 29, the page still shows frame extraction as
    the running step, not as a completed one. *)
Lemma extraction_not_complete_at_20 :
  20 <= 20 /\
  completed_at 0 20 = false /\ active_at 0 20 = true /\
  completed_at 0 29 = false /\ active_at 0 29 = true.
Proof. split; [lia | repeat split]. Qed.

(** C6 (amended): the step list follows a fixed allocation of the
    progress value [p]: frame extraction is complete iff [p >= 30],
    speech recognition iff [p >= 50], emotion analysis iff [p >= 70], the
    seven-dimension evaluation iff [p >= 90] and report generation iff
    [p >= 100]; a step is the running one exactly between the previous
    threshold and its own (the first one for [0 < p < 30]); a step that
    is complete at some progress is complete at every higher one; and a
    step carries the check mark exactly when it is complete. *)
Theorem analysis_steps_thresholds (p : Z) :
  map label (analysis_steps p) =
    [js "프레임 추출"; js "음성 인식 (STT)"; js "감정 분석"; js "7차원 평가";
     js "리포트 생성"] /\
  (completed_at 0 p = true <-> 30 <= p) /\
  (completed_at 1 p = true <-> 50 <= p) /\
  (completed_at 2 p = true <-> 70 <= p) /\
  (completed_at 3 p = true <-> 90 <= p) /\
  (completed_at 4 p = true <-> 100 <= p) /\
  (active_at 0 p = true <-> 0 < p < 30) /\
  (active_at 1 p = true <-> 30 <= p < 50) /\
  (active_at 2 p = true <-> 50 <= p < 70) /\
  (active_at 3 p = true <-> 70 <= p < 90) /\
  (active_at 4 p = true <-> 90 <= p < 100) /\
  (forall (i : nat) (q : Z),
     p <= q -> completed_at i p = true -> completed_at i q = true) /\
  Forall (fun sp => AnalysisStep sp = check_mark <-> step_completed sp = true)
         (analysis_steps p).
Proof.
  split; [reflexivity|].
  assert (Hmark : forall sp, AnalysisStep sp = check_mark <-> step_completed sp = true).
  { intros sp. unfold AnalysisStep.
    destruct (step_completed sp), (active sp); split; congruence. }
  unfold completed_at, active_at, step_at, analysis_steps.
  cbn [nth_error step_completed active].
  repeat match goal with |- _ /\ _ => split end;
    try (rewrite ?andb_true_iff, ?Z.geb_le, ?Z.gtb_lt, ?Z.ltb_lt; lia).
  - intros i q Hpq.
    do 5 (destruct i as [|i];
          [cbn [nth_error step_completed]; rewrite !Z.geb_le; lia|]).
    destruct i; cbn [nth_error]; discriminate.
  - repeat constructor; apply Hmark.
Qed.

Lemma analysis_steps_thresholds_witness :
  completed_at 0 30 = true /\ completed_at 0 45 = true.
Proof.
  split; [reflexivity|].
  destruct (analysis_steps_thresholds 30)
    as [_ [_ [_ [_ [_ [_ [_ [_ [_ [_ [_ [H _]]]]]]]]]]]].
  apply (H 0%nat 45); [lia | reflexivity].
Defined.

End AnalysisSteps.

(** ** The upload page: which files are accepted *)

Section Validation.

Import Upload.

Lemma Array_includes_In (l : list jsstring) (x : jsstring) :
  Array_includes l x = true <-> In x l.
Proof.
  unfold Array_includes. rewrite existsb_exists. split.
  - intros [y [Hy E]]. apply eqb_eq in E. subst. exact Hy.
  - intros H. exists x. split; [exact H | apply eqb_refl].
Qed.

Lemma regex_test_spec (name : jsstring) :
  regex_test name = true <->
  exists stem ext, In ext extensions /\ toLowerAscii name = stem ++ js "." ++ ext.
Proof.
  unfold regex_test. rewrite existsb_exists. split.
  - intros [ext [Hext H]]. apply endsWith_spec in H as [stem H].
    exists stem, ext. split; assumption.
  - intros [stem [ext [Hext H]]]. exists ext. split; [exact Hext|].
    apply endsWith_spec. exists stem. exact H.
Qed.

Lemma handleDrop_invalid (f : File) (s : State) :
  isValidVideo f = false ->
  handleDrop (Some f) s = setError (Some drop_error) (setIsDragging false s).
Proof. intros H. unfold handleDrop. rewrite H. reflexivity. Qed.

Lemma handleFileSelect_invalid (f : File) (s : State) :
  isValidVideo f = false ->
  handleFileSelect (Some f) s = setError (Some select_error) s.
Proof. intros H. unfold handleFileSelect. rewrite H. reflexivity. Qed.

Lemma step_selection_valid (s : State) (a : Action) :
  selection_valid s -> selection_valid (step s a).
Proof.
  unfold selection_valid. intros Hs.
  destruct a as [ | | [f|] | [f|] | | | | | ]; simpl; try exact Hs; try exact I.
  - unfold handleDrop. destruct (isValidVideo f) eqn:E; simpl; assumption.
  - unfold handleFileSelect. destruct (isValidVideo f) eqn:E; simpl; assumption.
  - unfold handleUpload_begin. destruct (file s) eqn:E; simpl; rewrite ?E; exact Hs.
Qed.

(** Through any sequence of actions from the opening state the selection
    is empty or a file of the whitelist. *)
Lemma run_selection_valid (l : list Action) : selection_valid (run l).
Proof.
  unfold run.
  assert (H : forall s, selection_valid s -> selection_valid (fold_left step l s)).
  { induction l as [|a l IH]; intros s Hs; simpl; [exact Hs|].
    apply IH. apply step_selection_valid. exact Hs. }
  apply H. exact I.
Qed.

(** C8: [isValidVideo] accepts a file if and only if its MIME type is one
    of video/mp4, video/avi, video/quicktime, video/x-matroska,
    video/webm, or its name, letters of either case, ends in .mp4, .avi,
    .mov, .mkv or .webm.  A file outside this whitelist that is dropped
    or picked is rejected: the page shows the unsupported-format error
    and the selection is left as it was, so with nothing selected before,
    nothing is selected after, and in every state the page can reach
    from its opening state the rejected file is not the one selected for
    upload.  A file inside the whitelist becomes the selection. *)
Theorem isValidVideo_whitelist (f : File) :
  (isValidVideo f = true <->
     In (type f)
        [js "video/mp4"; js "video/avi"; js "video/quicktime";
         js "video/x-matroska"; js "video/webm"] \/
     exists stem ext,
       In ext [js "mp4"; js "avi"; js "mov"; js "mkv"; js "webm"] /\
       toLowerAscii (name f) = stem ++ js "." ++ ext) /\
  (isValidVideo f = false ->
     forall s : State,
       error (handleDrop (Some f) s) = Some drop_error /\
       file (handleDrop (Some f) s) = file s /\
       error (handleFileSelect (Some f) s) = Some select_error /\
       file (handleFileSelect (Some f) s) = file s /\
       (file s = None ->
          file (handleDrop (Some f) s) = None /\
          file (handleFileSelect (Some f) s) = None) /\
       (selection_valid s ->
          file (handleDrop (Some f) s) <> Some f /\
          file (handleFileSelect (Some f) s) <> Some f)) /\
  (isValidVideo f = false ->
     forall l : list Action,
       file (step (run l) (Drop (Some f))) <> Some f /\
       file (step (run l) (Select (Some f))) <> Some f) /\
  (isValidVideo f = true ->
     forall s : State,
       file (handleDrop (Some f) s) = Some f /\
       error (handleDrop (Some f) s) = None /\
       file (handleFileSelect (Some f) s) = Some f /\
       error (handleFileSelect (Some f) s) = None).
Proof.
  assert (Hsel : isValidVideo f = false -> forall s : State,
            selection_valid s ->
            file (handleDrop (Some f) s) <> Some f /\
            file (handleFileSelect (Some f) s) <> Some f).
  { intros H s Hs.
    rewrite (handleDrop_invalid f s H), (handleFileSelect_invalid f s H).
    cbn [error file setError setIsDragging].
    unfold selection_valid in Hs.
    split; intros E; rewrite E in Hs; congruence. }
  split; [|split; [|split]].
  - unfold isValidVideo. rewrite orb_true_iff, Array_includes_In, regex_test_spec.
    reflexivity.
  - intros H s.
    split; [|split; [|split; [|split; [|split]]]];
      try (rewrite ?(handleDrop_invalid f s H), ?(handleFileSelect_invalid f s H);
           reflexivity).
    + rewrite (handleDrop_invalid f s H), (handleFileSelect_invalid f s H).
      intros E; split; exact E.
    + apply Hsel. exact H.
  - intros H l. apply (Hsel H). apply run_selection_valid.
  - intros H s. unfold handleDrop, handleFileSelect. rewrite H.
    repeat split.
Qed.

(** A text file is turned away; a file named in capitals with no MIME
    type is taken. *)
Lemma isValidVideo_whitelist_witness :
  let notes := {| name := js "notes.txt"; type := js "text/plain"; size := 10 |} in
  let lesson := {| name := js "LESSON.MP4"; type := []; size := 1048576 |} in
  isValidVideo notes = false /\
  error (handleDrop (Some notes) initial) = Some drop_error /\
  file (handleDrop (Some notes) initial) = None /\
  isValidVideo lesson = true /\
  file (handleDrop (Some lesson) initial) = Some lesson.
Proof.
  cbv zeta.
  assert (Hn : isValidVideo {| name := js "notes.txt"; type := js "text/plain";
                               size := 10 |} = false) by (vm_compute; reflexivity).
  assert (Hl : isValidVideo {| name := js "LESSON.MP4"; type := [];
                               size := 1048576 |} = true) by (vm_compute; reflexivity).
  split; [exact Hn|].
  destruct (proj1 (proj2 (isValidVideo_whitelist _)) Hn initial)
    as [H1 [H2 _]].
  split; [exact H1|]. split; [exact H2|]. split; [exact Hl|].
  exact (proj1 (proj2 (proj2 (proj2 (isValidVideo_whitelist _))) Hl initial)).
Defined.

End Validation.

(** ** The upload page: progress *)

Section Progress.

Import Upload ProgressChannel.

Lemma Sorted_snoc (l : list Z) (x : Z) :
  Sorted Z.le l -> Forall (fun v => v <= x) l -> Sorted Z.le (l ++ [x]).
Proof.
  induction l as [|a l IH]; intros Hs Hf; simpl.
  - repeat constructor.
  - inversion Hs as [|? ? Hs' Hh]; subst. inversion Hf as [|? ? Ha Hf']; subst.
    constructor; [apply IH; assumption|].
    destruct l as [|b l]; simpl.
    + constructor. exact Ha.
    + inversion Hh; subst. constructor. assumption.
Qed.

(** *** The subscriber *)

Lemma deliver_closed (c : Subscriber) (ev : WsEvent) :
  ws_open c = false -> deliver c ev = c.
Proof. intros H. unfold deliver. rewrite H. reflexivity. Qed.

Lemma after_closed (c : Subscriber) (evs : list WsEvent) :
  ws_open c = false -> after c evs = c.
Proof.
  intros H. unfold after. induction evs as [|ev evs IH]; simpl.
  - reflexivity.
  - rewrite (deliver_closed c ev H). exact IH.
Qed.

Lemma handled_closed (c : Subscriber) (evs : list WsEvent) :
  ws_open c = false -> handled c evs = [].
Proof.
  intros H. induction evs as [|ev evs IH]; simpl; [reflexivity|].
  rewrite H. exact IH.
Qed.

Lemma onmessage_terminal (ev : WsEvent) (c : Subscriber) :
  is_terminal ev = true ->
  ws_open (onmessage ev c) = false /\
  (status (page (onmessage ev c)) = completed \/
   status (page (onmessage ev c)) = status_error).
Proof.
  destruct ev; simpl; try discriminate; intros _; split; auto.
Qed.

Lemma onmessage_not_terminal (ev : WsEvent) (c : Subscriber) :
  is_terminal ev = false -> ws_open (onmessage ev c) = ws_open c.
Proof. destruct ev; simpl; try discriminate; reflexivity. Qed.

(** Whatever the server sends, the events that reach the handler are
    some non-terminal events followed by at most one terminal event. *)
Lemma handled_shape (evs : list WsEvent) (c : Subscriber) :
  exists pre,
    Forall (fun e => is_terminal e = false) pre /\
    (handled c evs = pre \/
     exists t, is_terminal t = true /\ handled c evs = pre ++ [t]).
Proof.
  revert c. induction evs as [|ev evs IH]; intros c; simpl.
  - exists []. split; [constructor | left; reflexivity].
  - destruct (ws_open c) eqn:Ho; [|apply IH].
    destruct (is_terminal ev) eqn:Ht.
    + exists []. split; [constructor|]. right. exists ev. split; [exact Ht|].
      rewrite handled_closed; [reflexivity|].
      apply onmessage_terminal. exact Ht.
    + destruct (IH (onmessage ev c)) as [pre [Hpre [E | [t [Htt E]]]]];
        exists (ev :: pre); (split; [constructor; assumption|]).
      * left. rewrite E. reflexivity.
      * right. exists t. split; [exact Htt|]. rewrite E. reflexivity.
Qed.

Lemma handled_terminals (evs : list WsEvent) (c : Subscriber) :
  (List.length (filter is_terminal (handled c evs)) <= 1)%nat.
Proof.
  destruct (handled_shape evs c) as [pre [Hpre [E | [t [Ht E]]]]]; rewrite E.
  - assert (H : filter is_terminal pre = []).
    { clear E. induction Hpre as [|e pre He _ IH]; simpl; [reflexivity|].
      rewrite He. exact IH. }
    rewrite H. simpl. lia.
  - rewrite filter_app. simpl. rewrite Ht.
    assert (H : filter is_terminal pre = []).
    { clear E. induction Hpre as [|e pre He _ IH]; simpl; [reflexivity|].
      rewrite He. exact IH. }
    rewrite H. simpl. lia.
Qed.

(** A stream that keeps the contract of the push path, delivered to an
    open subscriber that shows progress [lo]. *)
Lemma contract_run (evs : list WsEvent) (lo : Z) (c : Subscriber) :
  contract lo evs = true ->
  ws_open c = true ->
  progress_of c = lo ->
  0 <= lo <= 100 ->
  handled c evs = evs /\
  List.length (filter is_terminal evs) = 1%nat /\
  Sorted Z.le (lo :: map progress_of (states c evs)) /\
  Forall (fun p => 0 <= p <= 100) (map progress_of (states c evs)) /\
  ws_open (after c evs) = false /\
  (status (page (after c evs)) = completed \/
   status (page (after c evs)) = status_error).
Proof.
  revert lo c. induction evs as [|ev evs IH]; intros lo c Hc Ho Hp Hlo.
  - discriminate Hc.
  - destruct ev as [p | | e | ].
    + cbn [contract] in Hc.
      apply andb_true_iff in Hc as [Hc Hrest].
      apply andb_true_iff in Hc as [H1 H2].
      apply Z.leb_le in H1. apply Z.leb_le in H2.
      assert (Hd : deliver c (EvProgress p) = onmessage (EvProgress p) c)
        by (unfold deliver; rewrite Ho; reflexivity).
      destruct (IH p (onmessage (EvProgress p) c) Hrest Ho eq_refl)
        as [I1 [I2 [I3 [I4 [I5 I6]]]]]; [lia|].
      unfold after in *. cbn [handled states fold_left filter is_terminal map].
      rewrite Ho, Hd, I1.
      repeat match goal with |- _ /\ _ => split end; try assumption.
      * reflexivity.
      * constructor; [exact I3 | constructor; exact H1].
      * constructor; [|exact I4]. unfold progress_of. simpl. lia.
    + destruct evs as [|ev' evs']; [|discriminate Hc].
      unfold after. cbn [handled states fold_left filter is_terminal map].
      unfold deliver. rewrite Ho.
      unfold progress_of. simpl.
      repeat match goal with |- _ /\ _ => split end; auto.
      * apply Sorted_cons; [apply Sorted_cons; constructor|].
        apply HdRel_cons. lia.
      * apply Forall_cons; [lia | apply Forall_nil].
    + destruct evs as [|ev' evs']; [|discriminate Hc].
      unfold after. cbn [handled states fold_left filter is_terminal map].
      unfold deliver. rewrite Ho.
      unfold progress_of in *. simpl.
      repeat match goal with |- _ /\ _ => split end; auto.
      * apply Sorted_cons; [apply Sorted_cons; constructor|].
        apply HdRel_cons. lia.
      * apply Forall_cons; [lia | apply Forall_nil].
    + discriminate Hc.
Qed.

(** *** The simulated upload progress *)

Lemma tick_step (v : Z) : tick v = v \/ tick v = v + 10.
Proof. unfold tick. destruct (v >=? 90); auto. Qed.

Lemma tick_on_grid (v : Z) : on_grid v -> on_grid (tick v) /\ v <= tick v.
Proof.
  intros [k [Hk ->]]. unfold tick. destruct (Z.geb_spec (10 * k) 90).
  - split; [exists k; split; [lia | reflexivity] | lia].
  - split; [exists (k + 1); split; lia | lia].
Qed.

Lemma ticking_on_grid (n : nat) (s : State) :
  on_grid (uploadProgress s) ->
  Sorted Z.le (uploadProgress s :: map uploadProgress (ticking n s)) /\
  Forall on_grid (map uploadProgress (ticking n s)).
Proof.
  revert s. induction n as [|n IH]; intros s Hs; simpl.
  - split; repeat constructor.
  - destruct (tick_on_grid _ Hs) as [Hg Hle].
    destruct (IH (on_tick s) Hg) as [I1 I2].
    split.
    + constructor; [exact I1 | constructor; exact Hle].
    + constructor; [exact Hg | exact I2].
Qed.

Lemma ticking_trace_shape (n : nat) (s : State) :
  file s <> None ->
  ticking_trace n s = 0 :: map uploadProgress (ticking n (handleUpload_begin s)).
Proof.
  intros Hf. unfold ticking_trace, ticking_states, handleUpload_begin.
  destruct (file s) as [f|]; [|congruence]. reflexivity.
Qed.

Lemma upload_trace_shape (n : nat) (s : State) :
  upload_trace n s = ticking_trace n s ++ [100].
Proof.
  unfold upload_trace, upload_states, ticking_trace.
  rewrite map_app. reflexivity.
Qed.

Lemma handleUpload_begin_progress (s : State) :
  file s <> None -> uploadProgress (handleUpload_begin s) = 0.
Proof.
  intros Hf. unfold handleUpload_begin. destruct (file s); [reflexivity|congruence].
Qed.

(** The handler shows a progress value exactly as it arrives: on a run
    of progress events the page goes through the delivered values, in
    their order, after the 0 that [startAnalysis] sets. *)
Lemma observed_relays (s : State) (ps : list Z) :
  observed s (map EvProgress ps) = 0 :: ps.
Proof.
  unfold observed. cbn [map]. f_equal.
  assert (H : forall c, ws_open c = true ->
            map (fun c => analysisProgress (page c)) (states c (map EvProgress ps)) = ps).
  { induction ps as [|p ps IH]; intros c Ho; simpl; [reflexivity|].
    unfold deliver. rewrite Ho. simpl. f_equal. apply IH. exact Ho. }
  apply H. reflexivity.
Qed.

(** C9: on every stream that keeps the contract of the push path
    (progress values that never decrease and stay within 0 and 100, then
    exactly one terminal event), the progress values the page shows, from
    the 0 set when the analysis starts to the 100 set on [complete], never
    decrease and stay within 0 and 100; every event of the stream is
    handled, exactly one of them terminal, and the page ends completed or
    in error with the socket closed.  On any stream at all, at most one
    terminal event is ever handled, and once a terminal event has been
    delivered no later event is handled or changes the page.  The
    simulated upload progress starts at 0 and moves up by 10 at a tick
    until it holds at 90, which is all there is when the fetch is
    rejected, and it is set to 100 when the fetch has resolved: it never
    decreases and never exceeds 100. *)
Theorem progress_never_decreases_and_ends_once :
  (forall (s : State) (evs : list WsEvent),
     contract 0 evs = true ->
     Sorted Z.le (observed s evs) /\
     Forall (fun p => 0 <= p <= 100) (observed s evs) /\
     handled (startAnalysis s) evs = evs /\
     List.length (filter is_terminal (handled (startAnalysis s) evs)) = 1%nat /\
     ws_open (after (startAnalysis s) evs) = false /\
     (status (page (after (startAnalysis s) evs)) = completed \/
      status (page (after (startAnalysis s) evs)) = status_error)) /\
  (forall (c : Subscriber) (evs : list WsEvent),
     (List.length (filter is_terminal (handled c evs)) <= 1)%nat) /\
  (forall (c : Subscriber) (t : WsEvent) (more : list WsEvent),
     is_terminal t = true ->
     handled (deliver c t) more = [] /\
     after (deliver c t) more = deliver c t) /\
  (forall (n : nat) (s : State),
     file s <> None ->
     hd_error (ticking_trace n s) = Some 0 /\
     Sorted Z.le (ticking_trace n s) /\
     Forall (fun v => 0 <= v <= 90) (ticking_trace n s) /\
     upload_trace n s = ticking_trace n s ++ [100] /\
     Sorted Z.le (upload_trace n s) /\
     Forall (fun v => 0 <= v <= 100) (upload_trace n s)) /\
  (forall v : Z, tick v = v \/ tick v = v + 10).
Proof.
  split; [|split; [|split; [|split]]].
  - intros s evs Hc.
    destruct (contract_run evs 0 (startAnalysis s) Hc eq_refl eq_refl)
      as [H1 [H2 [H3 [H4 [H5 H6]]]]]; [lia|].
    unfold observed. cbn [map].
    change (analysisProgress (page (startAnalysis s))) with 0.
    repeat match goal with |- _ /\ _ => split end; try assumption.
    + constructor; [lia | exact H4].
    + rewrite H1. exact H2.
  - intros c evs. apply handled_terminals.
  - intros c t more Ht.
    assert (Hclosed : ws_open (deliver c t) = false).
    { unfold deliver. destruct (ws_open c) eqn:Ho; [|exact Ho].
      apply onmessage_terminal. exact Ht. }
    split; [apply handled_closed | apply after_closed]; exact Hclosed.
  - intros n s Hf.
    rewrite (upload_trace_shape n s), (ticking_trace_shape n s Hf).
    assert (Hg : on_grid (uploadProgress (handleUpload_begin s))).
    { rewrite (handleUpload_begin_progress s Hf). exists 0. lia. }
    destruct (ticking_on_grid n _ Hg) as [Hs Hgrid].
    rewrite (handleUpload_begin_progress s Hf) in Hs.
    assert (Hb : Forall (fun v => 0 <= v <= 90)
                   (0 :: map uploadProgress (ticking n (handleUpload_begin s)))).
    { constructor; [lia|]. eapply Forall_impl; [|exact Hgrid].
      intros v [k [Hk ->]]. lia. }
    repeat match goal with |- _ /\ _ => split end.
    + reflexivity.
    + exact Hs.
    + exact Hb.
    + reflexivity.
    + apply Sorted_snoc; [exact Hs|].
      eapply Forall_impl; [|exact Hb]. intros v Hv. simpl in Hv. lia.
    + apply Forall_app. split.
      * eapply Forall_impl; [|exact Hb]. intros v Hv. simpl in Hv. lia.
      * constructor; [lia | constructor].
  - exact tick_step.
Qed.

(** The stream of a job whose five stages all complete, and an upload
    during which the interval fires twelve times. *)
Lemma progress_never_decreases_and_ends_once_witness :
  let evs := [EvProgress 20; EvProgress 50; EvProgress 70; EvProgress 90;
              EvProgress 100; EvComplete] in
  let s := setFile (Some {| name := js "lesson.mp4"; type := js "video/mp4";
                            size := 1048576 |}) initial in
  contract 0 evs = true /\
  observed s evs = [0; 20; 50; 70; 90; 100; 100] /\
  Sorted Z.le (observed s evs) /\
  upload_trace 12 s = [0; 10; 20; 30; 40; 50; 60; 70; 80; 90; 90; 90; 90; 100] /\
  Sorted Z.le (upload_trace 12 s).
Proof.
  cbv zeta. split; [reflexivity|]. split; [reflexivity|]. split.
  - apply (proj1 progress_never_decreases_and_ends_once). reflexivity.
  - split; [reflexivity|].
    apply (proj1 (proj2 (proj2 (proj2 progress_never_decreases_and_ends_once)))
             12%nat).
    discriminate.
Defined.

End Progress.

(** * Further properties of the pages *)

(** ** The AI coach: replies, the conversation and the keyboard *)

Section Conversation.

Import AICoach AICoachView.

Ltac run_send :=
  cbv beta iota zeta delta
    [sendMessage sendMessage_begin sendMessage_settle try_catch_finally
     try_block catch_block bind throw ret setMessages setInputValue
     setIsLoading setSessionId setSuggestions fst snd
     messages inputValue isLoading sessionId suggestions message].

(** Whatever the request gives, settling appends exactly one message,
    and it is the assistant's. *)
Lemma settle_appends_one (messageText : jsstring) (r : Response) (c : Clock)
    (st : State) :
  exists reply,
    messages (fst (sendMessage_settle messageText r c st)) = messages st ++ [reply] /\
    role reply = assistant.
Proof.
  destruct r as [|[|] [[sid [m|] sug]|]]; eexists; split;
    try (run_send; reflexivity); reflexivity.
Qed.

Lemma sendMessage_settle_done (messageText : jsstring) (r : Response)
    (c : Clock) (st : State) :
  snd (sendMessage_settle messageText r c st) = Normal tt /\
  isLoading (fst (sendMessage_settle messageText r c st)) = false.
Proof.
  destruct r as [|[|] [[sid [m|] sug]|]]; split; reflexivity.
Qed.

Lemma begin_appends (analysisId : option jsstring) (st : State)
    (messageText : jsstring) (c : Clock) :
  guard st messageText = false ->
  exists sent req,
    sendMessage_begin analysisId st messageText c
      = ({| messages := messages st ++ [sent]; inputValue := [];
            isLoading := true; sessionId := sessionId st; suggestions := [] |},
         Some req) /\
    role sent = user /\ content sent = messageText /\
    req_session_id req = sessionId st /\ req_message req = messageText /\
    req_analysis_id req = analysisId.
Proof.
  intros Hg. unfold sendMessage_begin. rewrite Hg.
  eexists. eexists. split; [reflexivity|]. repeat split.
Qed.

(** X1: a send that passes the guard and whose request is answered with
    a body that has a message appends the user message and one assistant
    message carrying the body's content and timestamp; it stores the
    body's session id, shows the body's suggestions (none when the body
    has no such field), empties the input and ends the loading. *)
Theorem sendMessage_success_relays_reply (analysisId : option jsstring)
    (st : State) (messageText : jsstring) (c0 c1 : Clock) (data : Reply)
    (m : ReplyMessage) :
  guard st messageText = false ->
  message data = Some m ->
  exists st',
    sendMessage analysisId messageText c0 (Received true (Some data)) c1 st
      = (st', Normal tt) /\
    messages st' =
      messages st ++
      [ {| id := toString (now c0); role := user; content := messageText;
           timestamp := iso c0 |};
        {| id := toString (now c1) ++ js "-assistant"; role := assistant;
           content := reply_content m; timestamp := reply_timestamp m |} ] /\
    sessionId st' = session_id data /\
    suggestions st' = match reply_suggestions data with
                      | Some l => l
                      | None => []
                      end /\
    inputValue st' = [] /\
    isLoading st' = false.
Proof.
  intros Hg Hm. unfold sendMessage, sendMessage_begin. rewrite Hg.
  destruct data as [sid msg sug]. simpl in Hm. subst msg.
  eexists. split; [reflexivity|]. run_send. rewrite <- app_assoc.
  repeat match goal with |- _ /\ _ => split end; reflexivity.
Qed.

Lemma sendMessage_success_relays_reply_witness :
  let c0 := {| now := 1765274745000; iso := js "2025-12-09T10:05:45.000Z" |} in
  let c1 := {| now := 1765274746200; iso := js "2025-12-09T10:05:46.200Z" |} in
  let data := {| session_id := Some (js "s-1");
                 message := Some {| reply_content := js "네, 좋습니다.";
                                    reply_timestamp := js "2025-12-09T10:05:46" |};
                 reply_suggestions := None |} in
  exists st',
    sendMessage None (js "학생 참여를 높이는 방법은?") c0
                (Received true (Some data)) c1 (initial c0) = (st', Normal tt) /\
    sessionId st' = Some (js "s-1") /\
    suggestions st' = [].
Proof.
  cbv zeta.
  destruct (sendMessage_success_relays_reply None
              (initial {| now := 1765274745000;
                          iso := js "2025-12-09T10:05:45.000Z" |})
              (js "학생 참여를 높이는 방법은?")
              {| now := 1765274745000; iso := js "2025-12-09T10:05:45.000Z" |}
              {| now := 1765274746200; iso := js "2025-12-09T10:05:46.200Z" |}
              {| session_id := Some (js "s-1");
                 message := Some {| reply_content := js "네, 좋습니다.";
                                    reply_timestamp := js "2025-12-09T10:05:46" |};
                 reply_suggestions := None |}
              {| reply_content := js "네, 좋습니다.";
                 reply_timestamp := js "2025-12-09T10:05:46" |})
    as [st' [H1 [_ [H2 [H3 _]]]]].
  - vm_compute. reflexivity.
  - reflexivity.
  - exists st'. split; [exact H1|]. split; [exact H2 | exact H3].
Defined.

Lemma step_messages (analysisId : option jsstring) (p : Page) (a : Action) :
  exists tail,
    messages (state (step analysisId p a)) = messages (state p) ++ tail /\
    (List.length tail <= 1)%nat.
Proof.
  destruct a as [messageText c | text | r c]; simpl.
  - destruct (guard (state p) messageText) eqn:Hg.
    + unfold sendMessage_begin. rewrite Hg. exists []. simpl.
      rewrite app_nil_r. split; [reflexivity | lia].
    + destruct (begin_appends analysisId _ _ c Hg) as [sent [req [E _]]].
      rewrite E. exists [sent]. simpl. split; [reflexivity | lia].
  - exists []. rewrite app_nil_r. split; [reflexivity | simpl; lia].
  - destruct (pending p) as [|messageText rest].
    + exists []. rewrite app_nil_r. split; [reflexivity | simpl; lia].
    + destruct (settle_appends_one messageText r c (state p)) as [reply [E _]].
      exists [reply]. simpl. split; [exact E | lia].
Qed.

(** X2: the conversation is an append-only log: through any sequence of
    sends, keystrokes and settled requests, from any state of the page,
    the messages there were are still there, in their order, at the
    front of the conversation, and each action adds at most one. *)
Theorem conversation_is_append_only (analysisId : option jsstring)
    (l : list Action) (p : Page) :
  exists tail,
    messages (state (run analysisId p l)) = messages (state p) ++ tail /\
    (List.length tail <= List.length l)%nat.
Proof.
  revert p. induction l as [|a l IH]; intros p; simpl.
  - exists []. rewrite app_nil_r. split; [reflexivity | simpl; lia].
  - destruct (step_messages analysisId p a) as [t1 [E1 L1]].
    destruct (IH (step analysisId p a)) as [t2 [E2 L2]].
    exists (t1 ++ t2). unfold run in *. rewrite E2, E1, app_assoc.
    split; [reflexivity|]. rewrite length_app. lia.
Qed.

(** The turn-taking invariant of the page. *)
Definition takes_turns (p : Page) : Prop :=
  (forall i m, nth_error (messages (state p)) i = Some m -> role m = turn_of i) /\
  Nat.odd (List.length (messages (state p))) = negb (isLoading (state p)).

Lemma turns_snoc (l : list Message) (m : Message) :
  (forall i x, nth_error l i = Some x -> role x = turn_of i) ->
  role m = turn_of (List.length l) ->
  forall i x, nth_error (l ++ [m]) i = Some x -> role x = turn_of i.
Proof.
  intros Hl Hm i x Hx.
  destruct (Nat.lt_ge_cases i (List.length l)) as [Hi | Hi].
  - rewrite nth_error_app1 in Hx by exact Hi. apply Hl. exact Hx.
  - rewrite nth_error_app2 in Hx by exact Hi.
    destruct (i - List.length l)%nat as [|k] eqn:E.
    + simpl in Hx. injection Hx as <-.
      replace i with (List.length l) by lia. exact Hm.
    + simpl in Hx. destruct k; discriminate Hx.
Qed.

Lemma step_takes_turns (analysisId : option jsstring) (p : Page) (a : Action) :
  in_flight_ok p -> takes_turns p -> takes_turns (step analysisId p a).
Proof.
  intros Hf [Ht Hodd]. destruct a as [messageText c | text | r c]; simpl.
  - destruct (guard (state p) messageText) eqn:Hg.
    + unfold sendMessage_begin. rewrite Hg. split; assumption.
    + destruct (begin_appends analysisId _ _ c Hg) as [sent [req [E [Hr _]]]].
      rewrite E. unfold guard in Hg. apply orb_false_iff in Hg as [_ Hl].
      rewrite Hl in Hodd. simpl in Hodd.
      split; simpl.
      * apply turns_snoc; [exact Ht|]. rewrite Hr. unfold turn_of.
        rewrite <- Nat.negb_odd, Hodd. reflexivity.
      * rewrite length_app. simpl. rewrite Nat.add_1_r, Nat.odd_succ.
        rewrite <- Nat.negb_odd, Hodd. reflexivity.
  - split; assumption.
  - destruct (pending p) as [|messageText rest] eqn:Ep; [split; assumption|].
    assert (Hl : isLoading (state p) = true).
    { destruct Hf as [[_ Hf] | [Hf _]]; [congruence | exact Hf]. }
    rewrite Hl in Hodd. simpl in Hodd.
    destruct (settle_appends_one messageText r c (state p)) as [reply [E Hr]].
    split; simpl.
    + rewrite E. apply turns_snoc; [exact Ht|]. rewrite Hr. unfold turn_of.
      rewrite <- Nat.negb_odd, Hodd. reflexivity.
    + rewrite E, length_app. simpl. rewrite Nat.add_1_r, Nat.odd_succ.
      rewrite <- Nat.negb_odd, Hodd. simpl.
      destruct (sendMessage_settle_done messageText r c (state p)) as [_ Hd].
      rewrite Hd. reflexivity.
Qed.

Lemma run_takes_turns (analysisId : option jsstring) (l : list Action) (p : Page) :
  in_flight_ok p -> takes_turns p ->
  in_flight_ok (run analysisId p l) /\ takes_turns (run analysisId p l).
Proof.
  revert p. induction l as [|a l IH]; intros p Hf Ht; simpl.
  - split; assumption.
  - apply IH; [apply step_in_flight_ok | apply step_takes_turns]; assumption.
Qed.

Lemma run_keeps_messages (analysisId : option jsstring) (l : list Action) (p : Page) :
  (List.length (messages (state p))
   <= List.length (messages (state (run analysisId p l))))%nat.
Proof.
  unfold run. revert p. induction l as [|a l IH]; intros p; simpl; [lia|].
  destruct (step_messages analysisId p a) as [tail [E _]].
  specialize (IH (step analysisId p a)).
  rewrite E, length_app in IH. lia.
Qed.

Lemma start_takes_turns (c : Clock) : in_flight_ok (start c) /\ takes_turns (start c).
Proof.
  split; [left; split; reflexivity|]. split; [|reflexivity].
  intros [|[|i]] m H; simpl in H; try discriminate H.
  injection H as <-. reflexivity.
Qed.

(** X3: the conversation takes turns: from the opening state, through
    any sequence of sends, keystrokes and settled requests, the messages
    alternate between the assistant and the user, the greeting first;
    while no request is in flight the last message is the assistant's,
    so every user message has got exactly one reply, and while one is in
    flight the last message is the user's, still unanswered. *)
Theorem conversation_takes_turns (analysisId : option jsstring) (c : Clock)
    (l : list Action) :
  let msgs := messages (state (run analysisId (start c) l)) in
  let loading := isLoading (state (run analysisId (start c) l)) in
  (forall i m, nth_error msgs i = Some m -> role m = turn_of i) /\
  (exists m, nth_error msgs (Nat.pred (List.length msgs)) = Some m /\
             role m = if loading then user else assistant) /\
  Nat.odd (List.length msgs) = negb loading.
Proof.
  cbv zeta.
  destruct (start_takes_turns c) as [Hf0 Ht0].
  destruct (run_takes_turns analysisId l (start c) Hf0 Ht0) as [_ [Ht Hodd]].
  split; [exact Ht|]. split; [|exact Hodd].
  destruct (messages (state (run analysisId (start c) l))) as [|m0 ms] eqn:E.
  - pose proof (run_keeps_messages analysisId l (start c)) as Hn.
    rewrite E in Hn. simpl in Hn. lia.
  - assert (Hlt : (Nat.pred (List.length (m0 :: ms)) < List.length (m0 :: ms))%nat)
      by (simpl; lia).
    apply nth_error_Some in Hlt.
    destruct (nth_error (m0 :: ms) (Nat.pred (List.length (m0 :: ms)))) as [m|] eqn:En;
      [|congruence].
    exists m. split; [reflexivity|]. rewrite (Ht _ _ En). unfold turn_of.
    simpl Nat.pred. simpl List.length in Hodd.
    rewrite Nat.odd_succ in Hodd. rewrite Hodd.
    destruct (isLoading _); reflexivity.
Qed.

(** X4: the stored session id changes only when the body of an ok
    response was parsed: it then becomes the body's [session_id], also
    when the body has no message and the fallback answer is shown, and
    also when the body has no [session_id], in which case the stored id
    is lost; on every other outcome it is kept.  The next send that
    passes the guard carries the stored id in its request. *)
Theorem session_id_follows_parsed_bodies (messageText : jsstring)
    (r : Response) (c : Clock) (st : State) :
  let st' := fst (sendMessage_settle messageText r c st) in
  (forall data, r = Received true (Some data) -> sessionId st' = session_id data) /\
  (r = Rejected \/ (exists body, r = Received false body) \/ r = Received true None ->
     sessionId st' = sessionId st) /\
  (forall analysisId next c', guard st' next = false ->
     exists st'' req,
       sendMessage_begin analysisId st' next c' = (st'', Some req) /\
       req_session_id req = sessionId st').
Proof.
  cbv zeta. split; [|split].
  - intros [sid [m|] sug] ->; reflexivity.
  - intros [-> | [[body ->] | ->]]; reflexivity.
  - intros analysisId next c' Hg.
    destruct (begin_appends analysisId _ next c' Hg) as [sent [req [E [_ [_ [H _]]]]]].
    eexists. exists req. split; [exact E | exact H].
Qed.

(** A body with a session id and no message: the fallback answer is
    shown and the session id is stored all the same. *)
Lemma session_id_follows_parsed_bodies_witness :
  let c := {| now := 1765274745000; iso := js "2025-12-09T10:05:45.000Z" |} in
  let data := {| session_id := Some (js "s-7"); message := None;
                 reply_suggestions := None |} in
  let st' := fst (sendMessage_settle (js "시간") (Received true (Some data)) c
                                     (initial c)) in
  sessionId st' = Some (js "s-7") /\
  option_map content (nth_error (messages st') 1) = Some response_time.
Proof.
  cbv zeta. split.
  - apply (proj1 (session_id_follows_parsed_bodies (js "시간") _ _ _)
             {| session_id := Some (js "s-7"); message := None;
                reply_suggestions := None |}).
    reflexivity.
  - vm_compute. reflexivity.
Defined.

Lemma split_cons (sep : Z) (s : jsstring) :
  exists piece pieces, split sep s = piece :: pieces.
Proof.
  destruct s as [|c s]; simpl.
  - eexists. eexists. reflexivity.
  - destruct (c =? sep); [eexists; eexists; reflexivity|].
    destruct (split sep s); eexists; eexists; reflexivity.
Qed.

Lemma join_cons (sep c : Z) (piece : jsstring) (pieces : list jsstring) :
  join sep ((c :: piece) :: pieces) = c :: join sep (piece :: pieces).
Proof. destruct pieces; reflexivity. Qed.

Lemma split_join (sep : Z) (s : jsstring) : join sep (split sep s) = s.
Proof.
  induction s as [|c s IH]; [reflexivity|]. cbn [split].
  destruct (split_cons sep s) as [piece [pieces E]]. rewrite E in *.
  destruct (Z.eqb_spec c sep) as [-> | Hc].
  - change (join sep ([] :: piece :: pieces))
      with ([] ++ sep :: join sep (piece :: pieces)).
    rewrite IH. reflexivity.
  - rewrite join_cons, IH. reflexivity.
Qed.

Lemma split_pieces (sep : Z) (s : jsstring) :
  Forall (fun piece => ~ In sep piece) (split sep s) /\
  List.length (split sep s) = S (List.length (filter (Z.eqb sep) s)).
Proof.
  induction s as [|c s [IH1 IH2]]; simpl.
  - split; [repeat constructor; intros [] | reflexivity].
  - destruct (split_cons sep s) as [piece [pieces E]]. rewrite E in *.
    rewrite (Z.eqb_sym sep c).
    destruct (Z.eqb_spec c sep) as [-> | Hc]; simpl.
    + split; [constructor; [intros [] | exact IH1] | rewrite <- IH2; reflexivity].
    + inversion IH1 as [|? ? Hp Hps]; subst. split; [|exact IH2].
      constructor; [|exact Hps]. intros [H | H]; [congruence | exact (Hp H)].
Qed.

(** X5: a message is rendered as the pieces of its content between line
    feeds: joining the paragraphs with line feeds gives the content
    back, no paragraph holds a line feed, there is one paragraph more
    than there are line feeds, so at least one, also for an empty
    content. *)
Theorem paragraphs_round_trip (m : Message) :
  join 10 (paragraphs m) = content m /\
  Forall (fun piece => ~ In 10 piece) (paragraphs m) /\
  List.length (paragraphs m) = S (List.length (filter (Z.eqb 10) (content m))) /\
  (content m = [] -> paragraphs m = [[]]).
Proof.
  unfold paragraphs. split; [apply split_join|].
  destruct (split_pieces 10 (content m)) as [H1 H2].
  split; [exact H1|]. split; [exact H2|].
  intros ->. reflexivity.
Qed.

(** X6: a key press sends a message exactly when the key is Enter
    without Shift, the input is not blank and no request is in flight;
    what it sends is the text of the input, which is then emptied.  Any
    other key press, Shift+Enter included, leaves the page as it is, and
    the default action of the key is prevented exactly for Enter without
    Shift. *)
Theorem handleKeyPress_sends_on_plain_enter (analysisId : option jsstring)
    (e : KeyEvent) (st : State) (c : Clock) :
  let result := handleKeyPress analysisId e st c in
  let plain_enter := key e = js "Enter" /\ shiftKey e = false in
  (snd (fst result) <> None <->
     plain_enter /\ guard st (inputValue st) = false) /\
  (snd (fst result) = None -> fst (fst result) = st) /\
  (forall req, snd (fst result) = Some req ->
     req_message req = inputValue st /\
     req_session_id req = sessionId st /\
     inputValue (fst (fst result)) = [] /\
     isLoading (fst (fst result)) = true) /\
  (snd result = true <-> plain_enter).
Proof.
  cbv zeta. unfold handleKeyPress.
  assert (Hb : JsString.eqb (key e) (js "Enter") && negb (shiftKey e) = true <->
               key e = js "Enter" /\ shiftKey e = false).
  { rewrite andb_true_iff, negb_true_iff, eqb_eq. reflexivity. }
  destruct (JsString.eqb (key e) (js "Enter") && negb (shiftKey e)) eqn:Eb;
    cbn [fst snd].
  - assert (Hp : key e = js "Enter" /\ shiftKey e = false)
      by (apply Hb; reflexivity).
    destruct (guard st (inputValue st)) eqn:Hg.
    + unfold sendMessage_begin. rewrite Hg. cbn [fst snd].
      split; [|split; [|split]].
      * split; [intros H; exfalso; apply H; reflexivity
               | intros [_ H]; discriminate H].
      * reflexivity.
      * intros req H; discriminate H.
      * split; [intros _; exact Hp | reflexivity].
    + destruct (begin_appends analysisId st (inputValue st) c Hg)
        as [sent [req [E [_ [_ [H1 [H2 _]]]]]]].
      rewrite E. cbn [fst snd].
      split; [|split; [|split]].
      * split; [intros _; split; [exact Hp | reflexivity] | discriminate].
      * intros H; discriminate H.
      * intros req' H. injection H as <-. cbn [inputValue isLoading].
        repeat split; assumption.
      * split; [intros _; exact Hp | reflexivity].
  - split; [|split; [|split]].
    + split; [intros H; exfalso; apply H; reflexivity|].
      intros [Hp _]. apply Hb in Hp. discriminate Hp.
    + reflexivity.
    + intros req H; discriminate H.
    + split; [discriminate | intros Hp; apply Hb in Hp; discriminate Hp].
Qed.

Lemma handleKeyPress_sends_on_plain_enter_witness :
  let c := {| now := 1765274745000; iso := js "2025-12-09T10:05:45.000Z" |} in
  let st := fst (setInputValue (js "시간 배분") (initial c)) in
  snd (handleKeyPress None {| key := js "Enter"; shiftKey := true |} st c) = false /\
  exists req,
    snd (fst (handleKeyPress None {| key := js "Enter"; shiftKey := false |} st c))
      = Some req /\
    req_message req = js "시간 배분".
Proof.
  cbv zeta. split; [reflexivity|].
  destruct (snd (fst (handleKeyPress None {| key := js "Enter"; shiftKey := false |}
      (fst (setInputValue (js "시간 배분")
              (initial {| now := 1765274745000;
                          iso := js "2025-12-09T10:05:45.000Z" |})))
      {| now := 1765274745000; iso := js "2025-12-09T10:05:45.000Z" |})))
    as [req|] eqn:E.
  - exists req. split; [reflexivity|].
    apply (proj1 (proj2 (proj2 (handleKeyPress_sends_on_plain_enter None _ _ _))) req E).
  - exfalso. revert E. vm_compute. discriminate.
Defined.

End Conversation.

(** ** The upload page: the upload, the polling and the step list *)

Section UploadFlowFacts.

Import Upload UploadFlow.

Lemma last_cons_default {A : Type} (a d : A) (l : list A) :
  last (a :: l) d = last l a.
Proof.
  revert a d. induction l as [|b l IH]; intros a d; [reflexivity|].
  change (last (a :: b :: l) d) with (last (b :: l) d).
  rewrite !IH. reflexivity.
Qed.

(** The interval changes nothing but the upload progress, and keeps it
    on the grid 0, 10, ..., 90. *)
Lemma after_ticks_frame (n : nat) (s : State) :
  exists v,
    after_ticks n s = setUploadProgress (fun _ => v) s /\
    (on_grid (uploadProgress s) -> on_grid v).
Proof.
  unfold after_ticks. revert s. induction n as [|n IH]; intros s.
  - exists (uploadProgress s). split; [destruct s; reflexivity | tauto].
  - cbn [ticking]. rewrite last_cons_default.
    destruct (IH (on_tick s)) as [v [E Hv]]. exists v. split.
    + rewrite E. reflexivity.
    + intros Hg. apply Hv. apply (tick_on_grid _ Hg).
Qed.

(** X7: an upload is only ever started on a file of the whitelist: in
    every state the page reaches from its opening state by drags, drops,
    picks, the change button, uploads and resets, [handleUpload] does
    nothing when no file is selected, and otherwise the selected file is
    one [isValidVideo] accepted and the page turns to uploading with
    progress 0 and no error. *)
Theorem upload_starts_on_a_whitelisted_file (l : list Action) :
  let s := run l in
  (file s = None ->
     step s StartUpload = s /\
     forall n o a socket_ok, handleUpload n o a socket_ok s = (s, NoChannel)) /\
  (forall f, file s = Some f ->
     isValidVideo f = true /\
     file (step s StartUpload) = Some f /\
     status (step s StartUpload) = uploading /\
     uploadProgress (step s StartUpload) = 0 /\
     error (step s StartUpload) = None).
Proof.
  cbv zeta. pose proof (run_selection_valid l) as Hv.
  unfold selection_valid in Hv. split.
  - intros Hf. cbn [step]. unfold handleUpload, handleUpload_begin. rewrite Hf.
    split; [reflexivity | intros; reflexivity].
  - intros f Hf. rewrite Hf in Hv. cbn [step]. unfold handleUpload_begin.
    rewrite Hf. repeat split; assumption.
Qed.

Lemma upload_starts_on_a_whitelisted_file_witness :
  let lesson := {| name := js "lesson.mkv"; type := []; size := 2048 |} in
  let notes := {| name := js "notes.txt"; type := js "text/plain"; size := 10 |} in
  let l := [DragOver; Drop (Some lesson); Select (Some notes)] in
  file (run l) = Some lesson /\ isValidVideo lesson = true /\
  status (step (run l) StartUpload) = uploading.
Proof.
  cbv zeta.
  assert (Hf : file (run [DragOver;
                          Drop (Some {| name := js "lesson.mkv"; type := [];
                                        size := 2048 |});
                          Select (Some {| name := js "notes.txt";
                                          type := js "text/plain"; size := 10 |})])
               = Some {| name := js "lesson.mkv"; type := []; size := 2048 |})
    by (vm_compute; reflexivity).
  split; [exact Hf|].
  destruct (proj2 (upload_starts_on_a_whitelisted_file _) _ Hf) as [H1 [_ [H2 _]]].
  split; [exact H1 | exact H2].
Defined.

(** X8: what a call of [handleUpload] on a selected file ends in.  When
    the upload fails the page shows status error with a message that is
    never empty: the error's own message, or the stock text when it has
    none, and "업로드 실패" for a response that is not ok; no analysis is
    started and the analysis id is untouched.  The upload progress then
    reads 100 when a response had arrived and at most 90 when the fetch
    itself was rejected.  When the upload succeeds the page stores the
    returned id and turns to analyzing with analysis progress 0, upload
    progress 100 and no error, whatever the analyze request gives; it
    follows the analysis over the socket exactly when that request was
    not rejected and the socket could be built, and by polling
    otherwise.  The selection is never changed. *)
Theorem handleUpload_outcomes (n : nat) (o : UploadOutcome)
    (a : AnalyzeOutcome) (socket_ok : bool) (s : State) (f : File) :
  file s = Some f ->
  let s' := fst (handleUpload n o a socket_ok s) in
  let channel := snd (handleUpload n o a socket_ok s) in
  file s' = Some f /\
  ((forall id, o <> Uploaded id) ->
     status s' = status_error /\
     (exists text, error s' = Some text /\ truthy text = true) /\
     channel = NoChannel /\
     analysisId s' = analysisId s /\
     analysisProgress s' = analysisProgress s) /\
  (forall message, o = FetchRejects message ->
     error s' = Some (if truthy message then message else upload_error_default) /\
     0 <= uploadProgress s' <= 90) /\
  (o = NotOk -> error s' = Some upload_failed /\ uploadProgress s' = 100) /\
  (forall message, o = JsonRejects message ->
     error s' = Some (if truthy message then message else upload_error_default) /\
     uploadProgress s' = 100) /\
  (forall id, o = Uploaded id ->
     status s' = analyzing /\ analysisId s' = id /\
     analysisProgress s' = 0 /\ uploadProgress s' = 100 /\
     error s' = None /\
     (channel = Socket \/ channel = Polling) /\
     (channel = Socket <-> a = AnalyzeResponds /\ socket_ok = true)).
Proof.
  intros Hf. cbv zeta. unfold handleUpload. rewrite Hf.
  assert (Hb : handleUpload_begin s
               = setError None (setUploadProgress (fun _ => 0) (setStatus uploading s)))
    by (unfold handleUpload_begin; rewrite Hf; reflexivity).
  destruct (after_ticks_frame n (handleUpload_begin s)) as [v [E Hv]].
  assert (Hg : on_grid v).
  { apply Hv. rewrite Hb. exists 0. split; [lia | reflexivity]. }
  rewrite E, Hb. clear E Hv Hb.
  assert (Ht : forall message,
             truthy (if truthy message then message else upload_error_default) = true).
  { intros message. destruct (truthy message) eqn:Em; [exact Em | reflexivity]. }
  destruct Hg as [k [Hk ->]].
  assert (Hu : (if truthy upload_failed then upload_failed else upload_error_default)
               = upload_failed) by (vm_compute; reflexivity).
  destruct o as [message | | message | id]; cbn [fst snd];
    unfold catch_upload, handleUpload_resolved, startAnalysis_begin;
    cbn [file status error analysisId analysisProgress uploadProgress
         setError setStatus setUploadProgress setAnalysisProgress setAnalysisId];
    (split; [exact Hf|]); (split; [|split; [|split; [|split]]]);
    try (intros; match goal with H : _ = _ |- _ => discriminate H end).
  - intros _. repeat match goal with |- _ /\ _ => split end; try reflexivity.
    eexists. split; [reflexivity | apply Ht].
  - intros m' Hm. injection Hm as <-. split; [reflexivity | lia].
  - intros _. repeat match goal with |- _ /\ _ => split end; try reflexivity.
    eexists. split; [reflexivity | apply Ht].
  - intros _. rewrite Hu. split; reflexivity.
  - intros _. repeat match goal with |- _ /\ _ => split end; try reflexivity.
    eexists. split; [reflexivity | apply Ht].
  - intros m' Hm. injection Hm as <-. split; reflexivity.
  - intros Hn. exfalso. apply (Hn id). reflexivity.
  - intros id' Hm. injection Hm as <-.
    repeat match goal with |- _ /\ _ => split end; try reflexivity.
    + destruct a, socket_ok; simpl; auto.
    + split.
      * destruct a, socket_ok; simpl; intros H; try discriminate H;
          split; reflexivity.
      * intros [-> ->]. reflexivity.
Qed.

Lemma handleUpload_outcomes_witness :
  let lesson := {| name := js "lesson.mp4"; type := js "video/mp4"; size := 4096 |} in
  let s := setFile (Some lesson) initial in
  let s' := fst (handleUpload 3 NotOk AnalyzeResponds true s) in
  status s' = status_error /\ error s' = Some upload_failed /\
  uploadProgress s' = 100.
Proof.
  cbv zeta.
  assert (Hf : file (setFile (Some {| name := js "lesson.mp4";
                                      type := js "video/mp4"; size := 4096 |})
                             initial)
               = Some {| name := js "lesson.mp4"; type := js "video/mp4";
                         size := 4096 |}) by reflexivity.
  pose proof (handleUpload_outcomes 3 NotOk AnalyzeResponds true _ _ Hf) as H.
  cbv zeta in H. destruct H as [_ [H1 [_ [H2 _]]]].
  destruct H1 as [H1 _]; [discriminate|].
  destruct (H2 eq_refl) as [H3 H4].
  split; [exact H1|]. split; [exact H3 | exact H4].
Defined.

End UploadFlowFacts.

Section PollingFacts.

Import Upload UploadFlow.

Lemma poll_step_off (p : Poller) (e : PollEvent) :
  interval_on p = false ->
  interval_on (poll_step p e) = false /\
  (outstanding (poll_step p e) <= outstanding p)%nat.
Proof.
  intros Hoff. destruct e as [|r]; simpl.
  - rewrite Hoff. split; [exact Hoff | lia].
  - destruct (outstanding p) as [|k] eqn:Ek.
    + split; [exact Hoff | lia].
    + destruct r as [|st progress]; simpl.
      * rewrite Ek. split; [exact Hoff | simpl; lia].
      * destruct (JsString.eqb st (js "completed"));
          [|destruct (JsString.eqb st (js "failed"))];
          simpl; rewrite Ek; simpl; split; try reflexivity; try exact Hoff; lia.
Qed.

Lemma poll_run_off (l : list PollEvent) (p : Poller) :
  interval_on p = false ->
  requests_sent p l = 0%nat /\
  interval_on (poll_run p l) = false /\
  (outstanding (poll_run p l) <= outstanding p)%nat.
Proof.
  unfold poll_run. revert p. induction l as [|e l IH]; intros p Hoff.
  - simpl. repeat split; [exact Hoff | lia].
  - destruct (poll_step_off p e Hoff) as [H1 H2].
    destruct (IH (poll_step p e) H1) as [I1 [I2 I3]].
    cbn [requests_sent fold_left]. rewrite I1.
    split; [destruct e; [rewrite Hoff|]; reflexivity|].
    split; [exact I2 | lia].
Qed.

(** X9: the polling fallback.  A status request that fails changes
    nothing on the page and polling goes on.  A reply whose status is
    "completed" sets the page to completed, a reply whose status is
    "failed" sets it to error with the text "분석 실패", and either one
    clears the interval; the progress shown is then the value of that
    reply (it is not set to 100 as on the socket).  A reply with any
    other status only updates the progress.  Once the interval is
    cleared no further status request is ever sent and the number of
    requests still unanswered can only go down. *)
Theorem polling_stops_at_a_terminal_status :
  (forall p : Poller, (0 < outstanding p)%nat ->
     polled (poll_step p (Arrive PollFails)) = polled p /\
     interval_on (poll_step p (Arrive PollFails)) = interval_on p) /\
  (forall (p : Poller) (progress : Z), (0 < outstanding p)%nat ->
     let p' := poll_step p (Arrive (PollStatus (js "completed") progress)) in
     status (polled p') = completed /\
     analysisProgress (polled p') = progress /\
     error (polled p') = error (polled p) /\
     interval_on p' = false) /\
  (forall (p : Poller) (progress : Z), (0 < outstanding p)%nat ->
     let p' := poll_step p (Arrive (PollStatus (js "failed") progress)) in
     status (polled p') = status_error /\
     analysisProgress (polled p') = progress /\
     error (polled p') = Some analysis_failed /\
     interval_on p' = false) /\
  (forall (p : Poller) (st : jsstring) (progress : Z), (0 < outstanding p)%nat ->
     st <> js "completed" -> st <> js "failed" ->
     let p' := poll_step p (Arrive (PollStatus st progress)) in
     polled p' = setAnalysisProgress progress (polled p) /\
     interval_on p' = interval_on p) /\
  (forall (p : Poller) (l : list PollEvent), interval_on p = false ->
     requests_sent p l = 0%nat /\
     interval_on (poll_run p l) = false /\
     (outstanding (poll_run p l) <= outstanding p)%nat).
Proof.
  assert (Hc : JsString.eqb (js "completed") (js "completed") = true)
    by (vm_compute; reflexivity).
  assert (Hf : JsString.eqb (js "failed") (js "completed") = false)
    by (vm_compute; reflexivity).
  assert (Hf' : JsString.eqb (js "failed") (js "failed") = true)
    by (vm_compute; reflexivity).
  split; [|split; [|split; [|split]]].
  - intros p Hp. cbn [poll_step].
    destruct (outstanding p); [lia|]. split; reflexivity.
  - intros p progress Hp. cbv zeta. cbn [poll_step].
    destruct (outstanding p) eqn:E; [lia|]. unfold on_reply. rewrite Hc.
    repeat split.
  - intros p progress Hp. cbv zeta. cbn [poll_step].
    destruct (outstanding p) eqn:E; [lia|]. unfold on_reply. rewrite Hf, Hf'.
    repeat split.
  - intros p st progress Hp H1 H2. cbv zeta. cbn [poll_step].
    destruct (outstanding p) eqn:E; [lia|]. unfold on_reply.
    destruct (JsString.eqb st (js "completed")) eqn:E1;
      [apply eqb_eq in E1; congruence|].
    destruct (JsString.eqb st (js "failed")) eqn:E2;
      [apply eqb_eq in E2; congruence|].
    split; reflexivity.
  - intros p l Hoff. apply poll_run_off. exact Hoff.
Qed.

(** Two requests are out when the first reply says completed at 95: the
    page is completed with progress 95, and the firings that follow send
    nothing. *)
Lemma polling_stops_at_a_terminal_status_witness :
  let p := poll_run (pollAnalysisStatus (startAnalysis_begin initial))
                    [Fire; Fire; Arrive (PollStatus (js "completed") 95)] in
  interval_on p = false /\
  analysisProgress (polled p) = 95 /\
  requests_sent p [Fire; Fire; Fire] = 0%nat.
Proof.
  cbv zeta.
  assert (Hoff : interval_on
            (poll_run (pollAnalysisStatus (startAnalysis_begin initial))
               [Fire; Fire; Arrive (PollStatus (js "completed") 95)]) = false)
    by (vm_compute; reflexivity).
  split; [exact Hoff|]. split; [vm_compute; reflexivity|].
  destruct polling_stops_at_a_terminal_status as [_ [_ [_ [_ H]]]].
  destruct (H _ [Fire; Fire; Fire] Hoff) as [H1 _]. exact H1.
Defined.

End PollingFacts.

Section StepList.

Import Upload.

Ltac steps_cases :=
  unfold completed_at, active_at, step_at, analysis_steps in *;
  cbn [nth_error step_completed active] in *;
  repeat match goal with
         | H : context [nth_error [] ?i] |- _ => destruct i; cbn [nth_error] in H
         | |- context [nth_error [] ?i] => destruct i; cbn [nth_error]
         end;
  repeat match goal with
         | H : context [?a >=? ?b] |- _ => destruct (Z.geb_spec a b)
         | H : context [?a >? ?b] |- _ => destruct (Z.gtb_spec a b)
         | H : context [?a <? ?b] |- _ => destruct (Z.ltb_spec a b)
         | |- context [?a >=? ?b] => destruct (Z.geb_spec a b)
         | |- context [?a >? ?b] => destruct (Z.gtb_spec a b)
         | |- context [?a <? ?b] => destruct (Z.ltb_spec a b)
         end;
  cbn [andb] in *; try discriminate; try reflexivity; try lia.

Ltac first_six i := destruct i as [|[|[|[|[|i]]]]].

(** X10: the step list is a progress bar in five pieces: at every
    progress value the completed steps are the first ones of the list
    (a step is complete only if the one before it is), no step is both
    complete and running, at most one step is running, all steps before
    the running one are complete and none after it is, some step is
    running whenever the progress is strictly between 0 and 100, none is
    complete or running at 0 or below, and all five are complete at 100
    or above. *)
Theorem analysis_steps_form_a_prefix (p : Z) :
  (forall i, completed_at (S i) p = true -> completed_at i p = true) /\
  (forall i, completed_at i p = true -> active_at i p = false) /\
  (forall i j, active_at i p = true -> active_at j p = true -> i = j) /\
  (forall i j, active_at i p = true ->
     ((j < i)%nat -> completed_at j p = true) /\
     ((i < j)%nat -> completed_at j p = false)) /\
  (0 < p < 100 -> exists i, (i < 5)%nat /\ active_at i p = true) /\
  (p <= 0 -> forall i, completed_at i p = false /\ active_at i p = false) /\
  (100 <= p -> forall i, (i < 5)%nat ->
     completed_at i p = true /\ active_at i p = false).
Proof.
  split; [|split; [|split; [|split; [|split; [|split]]]]].
  - intros i H. first_six i; steps_cases.
  - intros i H. first_six i; steps_cases.
  - intros i j Hi Hj. first_six i; first_six j; steps_cases.
  - intros i j Hi. split; intros Hij; first_six i; first_six j; steps_cases.
  - intros Hp.
    destruct (Z.lt_ge_cases p 30); [exists 0%nat; split; [lia|steps_cases]|].
    destruct (Z.lt_ge_cases p 50); [exists 1%nat; split; [lia|steps_cases]|].
    destruct (Z.lt_ge_cases p 70); [exists 2%nat; split; [lia|steps_cases]|].
    destruct (Z.lt_ge_cases p 90); [exists 3%nat; split; [lia|steps_cases]|].
    exists 4%nat; split; [lia|steps_cases].
  - intros Hp i. split; first_six i; steps_cases.
  - intros Hp i Hi. split; first_six i; steps_cases.
Qed.

Lemma analysis_steps_form_a_prefix_witness :
  active_at 2 64 = true /\ completed_at 1 64 = true /\ completed_at 3 64 = false.
Proof.
  assert (Ha : active_at 2 64 = true) by reflexivity.
  destruct (analysis_steps_form_a_prefix 64) as [_ [_ [_ [H _]]]].
  split; [exact Ha|]. split.
  - apply (proj1 (H 2%nat 1%nat Ha)). lia.
  - apply (proj2 (H 2%nat 3%nat Ha)). lia.
Defined.

Lemma after_frame (evs : list WsEvent) (c : Subscriber) :
  file (page (after c evs)) = file (page c) /\
  uploadProgress (page (after c evs)) = uploadProgress (page c) /\
  analysisId (page (after c evs)) = analysisId (page c) /\
  isDragging (page (after c evs)) = isDragging (page c).
Proof.
  unfold after. revert c. induction evs as [|ev evs IH]; intros c.
  - repeat split.
  - cbn [fold_left]. destruct (IH (deliver c ev)) as [H1 [H2 [H3 H4]]].
    rewrite H1, H2, H3, H4. unfold deliver.
    destruct (ws_open c); [|repeat split]. destruct ev; repeat split.
Qed.

Lemma after_not_terminal (evs : list WsEvent) (c : Subscriber) :
  Forall (fun e => is_terminal e = false) evs ->
  ws_open c = true ->
  status (page (after c evs)) = status (page c) /\
  error (page (after c evs)) = error (page c) /\
  ws_open (after c evs) = true.
Proof.
  unfold after. intros H. revert c. induction H as [|ev evs Hev _ IH]; intros c Ho.
  - repeat split. exact Ho.
  - cbn [fold_left].
    assert (Hd : deliver c ev = onmessage ev c)
      by (unfold deliver; rewrite Ho; reflexivity).
    rewrite Hd.
    assert (Ho' : ws_open (onmessage ev c) = true)
      by (rewrite (onmessage_not_terminal ev c Hev); exact Ho).
    destruct (IH _ Ho') as [H1 [H2 H3]]. rewrite H1, H2, H3.
    destruct ev as [q | | e |]; try discriminate Hev; repeat split.
Qed.

(** X11: what the events of the socket can and cannot do to the page.
    No event ever changes the selected file, the upload progress, the
    analysis id or the drag flag.  As long as no terminal event has
    come, the page stays in the analyzing view with the socket open and
    its error untouched, whatever progress values and unknown messages
    arrive: only [complete] or [error] end the analysis. *)
Theorem socket_events_frame (s : State) (evs : list WsEvent) :
  let c := after (startAnalysis s) evs in
  file (page c) = file s /\
  uploadProgress (page c) = uploadProgress s /\
  analysisId (page c) = analysisId s /\
  isDragging (page c) = isDragging s /\
  (Forall (fun e => is_terminal e = false) evs ->
     status (page c) = analyzing /\ error (page c) = error s /\
     ws_open c = true) /\
  (status (page c) <> analyzing -> Exists (fun e => is_terminal e = true) evs).
Proof.
  cbv zeta.
  destruct (after_frame evs (startAnalysis s)) as [H1 [H2 [H3 H4]]].
  split; [exact H1|]. split; [exact H2|]. split; [exact H3|]. split; [exact H4|].
  split.
  - intros H. apply (after_not_terminal evs (startAnalysis s) H). reflexivity.
  - intros Hs.
    destruct (Exists_dec (fun e => is_terminal e = true) evs) as [He | He].
    + intros e. destruct (is_terminal e); [left; reflexivity | right; discriminate].
    + exact He.
    + exfalso. apply Hs.
      apply (after_not_terminal evs (startAnalysis s)); [|reflexivity].
      apply Forall_forall. intros e Hin.
      destruct (is_terminal e) eqn:E; [|reflexivity].
      exfalso. apply He. apply Exists_exists. exists e. split; assumption.
Qed.

Lemma socket_events_frame_witness :
  let lesson := {| name := js "lesson.mp4"; type := js "video/mp4"; size := 4096 |} in
  let s := setFile (Some lesson) initial in
  let c := after (startAnalysis s) [EvProgress 10; EvOther; EvProgress 35] in
  status (page c) = analyzing /\ ws_open c = true.
Proof.
  cbv zeta.
  pose proof (socket_events_frame
                (setFile (Some {| name := js "lesson.mp4"; type := js "video/mp4";
                                  size := 4096 |}) initial)
                [EvProgress 10; EvOther; EvProgress 35]) as H.
  cbv zeta in H. destruct H as [_ [_ [_ [_ [H _]]]]].
  destruct H as [H1 [_ H2]]; [repeat constructor|].
  split; [exact H1 | exact H2].
Defined.

End StepList.

(** ** The dashboard and the portfolio *)

Section Cards.

Import DashboardView PortfolioView.

Lemma replace_first_absent (pat rep : Z) (s : jsstring) :
  ~ In pat s -> replace_first pat rep s = s.
Proof.
  induction s as [|c s IH]; intros H; simpl; [reflexivity|].
  destruct (Z.eqb_spec c pat) as [-> | Hc].
  - exfalso. apply H. left. reflexivity.
  - rewrite IH; [reflexivity|]. intros Hin. apply H. right. exact Hin.
Qed.

Lemma replace_first_at (pat rep : Z) (a b : jsstring) :
  ~ In pat a -> replace_first pat rep (a ++ pat :: b) = a ++ rep :: b.
Proof.
  induction a as [|c a IH]; intros H; simpl.
  - rewrite Z.eqb_refl. reflexivity.
  - destruct (Z.eqb_spec c pat) as [-> | Hc].
    + exfalso. apply H. left. reflexivity.
    + rewrite IH; [reflexivity|]. intros Hin. apply H. right. exact Hin.
Qed.

Lemma In_split_first (pat : Z) (s : jsstring) :
  In pat s -> exists a b, s = a ++ pat :: b /\ ~ In pat a.
Proof.
  induction s as [|c s IH]; intros H; [destruct H|].
  destruct (Z.eq_dec c pat) as [-> | Hc].
  - exists [], s. split; [reflexivity | intros []].
  - destruct H as [H | H]; [congruence|].
    destruct (IH H) as [a [b [-> Ha]]].
    exists (c :: a), b. split; [reflexivity|].
    intros [E | Hin]; [congruence | exact (Ha Hin)].
Qed.

Lemma count_unit_app (u : Z) (a b : jsstring) :
  count_unit u (a ++ b) = (count_unit u a + count_unit u b)%nat.
Proof. unfold count_unit. rewrite filter_app, length_app. reflexivity. Qed.

(** X12: the label of a radar axis is the dimension's name with its
    first space, and only that one, turned into a line feed: a name
    without a space is kept as it is, what stands before the first space
    and everything after it is kept, so a name of three words keeps its
    second space; the length never changes. *)
Theorem subject_breaks_at_the_first_space (d : Dashboard.Dimension) :
  let label := Dashboard.dimension d in
  (~ In 32 label -> subject d = label) /\
  (forall a b, label = a ++ 32 :: b -> ~ In 32 a -> subject d = a ++ 10 :: b) /\
  List.length (subject d) = List.length label /\
  (In 32 label ->
     S (count_unit 32 (subject d)) = count_unit 32 label /\
     count_unit 10 (subject d) = S (count_unit 10 label)).
Proof.
  cbv zeta. unfold subject. split; [apply replace_first_absent|].
  split; [intros a b -> Ha; apply replace_first_at; exact Ha|].
  split.
  - generalize (Dashboard.dimension d). intros s.
    induction s as [|c s IH]; simpl; [reflexivity|].
    destruct (c =? 32); simpl; [reflexivity | rewrite IH; reflexivity].
  - intros Hin. destruct (In_split_first 32 _ Hin) as [a [b [E Ha]]].
    rewrite E, (replace_first_at 32 10 a b Ha), !count_unit_app.
    unfold count_unit. simpl. split; lia.
Qed.

Lemma subject_breaks_at_the_first_space_witness :
  let d := {| Dashboard.dimension := js "판서 및 언어"; Dashboard.dim_score := 12;
              Dashboard.maxScore := 15 |} in
  In d Dashboard.DEMO_DIMENSIONS /\
  count_unit 32 (Dashboard.dimension d) = 2%nat /\
  count_unit 32 (subject d) = 1%nat.
Proof.
  cbv zeta. split; [vm_compute; tauto|].
  assert (Hc : count_unit 32 (js "판서 및 언어") = 2%nat) by (vm_compute; reflexivity).
  split; [exact Hc|].
  assert (Hin : In 32 (js "판서 및 언어")) by (vm_compute; tauto).
  pose proof (subject_breaks_at_the_first_space
                {| Dashboard.dimension := js "판서 및 언어"; Dashboard.dim_score := 12;
                   Dashboard.maxScore := 15 |}) as H.
  cbv zeta in H. destruct H as [_ [_ [_ H]]].
  destruct (H Hin) as [H1 _]. cbn [Dashboard.dimension] in H1.
  rewrite Hc in H1. apply eq_add_S. exact H1.
Defined.

Lemma descending_head (s : Portfolio.Session) (rest : list Portfolio.Session) :
  descending (s :: rest) ->
  forall s', In s' (s :: rest) -> Portfolio.score s' <= Portfolio.score s.
Proof.
  intros [H _] s' [<- | Hin]; [lia|].
  rewrite Forall_forall in H. apply H. exact Hin.
Qed.

(** X13: the card "best score" shows the score of the first session of
    the list, whichever that is, and nothing when the list is empty;
    when the sessions are listed from the highest score down, as
    [DEMO_SESSIONS] is, this is the highest score of all. *)
Theorem best_score_is_the_first (sessions : list Portfolio.Session) :
  (sessions = [] -> best_score sessions = None) /\
  (forall s rest, sessions = s :: rest ->
     best_score sessions = Some (Portfolio.score s)) /\
  (descending sessions ->
     forall s, In s sessions ->
       exists best, best_score sessions = Some best /\ Portfolio.score s <= best).
Proof.
  split; [intros ->; reflexivity|]. split; [intros s rest ->; reflexivity|].
  intros Hd s Hin. destruct sessions as [|s0 rest]; [destruct Hin|].
  exists (Portfolio.score s0). split; [reflexivity|].
  apply (descending_head s0 rest Hd). exact Hin.
Qed.

Lemma best_score_is_the_first_witness :
  best_score Portfolio.DEMO_SESSIONS = Some 84 /\
  Forall (fun s => Portfolio.score s <= 84) Portfolio.DEMO_SESSIONS.
Proof.
  assert (Hd : descending Portfolio.DEMO_SESSIONS).
  { simpl. repeat split; repeat constructor; simpl; lia. }
  split; [reflexivity|].
  apply Forall_forall. intros s Hin.
  destruct (proj2 (proj2 (best_score_is_the_first Portfolio.DEMO_SESSIONS)) Hd s Hin)
    as [best [Hb Hle]].
  injection Hb as <-. exact Hle.
Defined.

End Cards.
